(** * Projekti_1: buzzer frequency control on an AVR microcontroller

    A shallow embedding of [Programming/Projekti_1/main.c]: the
    time-triggered task table ([update], [task_manager], [add_task],
    [init_tasks]), the two task bodies ([task_1], [task_2]), the ADC
    completion interrupt ([ISR(ADC_vect)]), the tick interrupt
    ([ISR(TIMER2_OVF_vect)]) and the sleep entry ([go_sleep]).

    The global variables of the program and the peripheral registers it
    touches are the fields of one [state] record; every C function is a
    function on that record.  Integers are [Z]; where a C conversion or an
    overflow can change a value, the wrap-around of the C type is written
    out ([u8], [u16], [s8], [s16]). *)

From Stdlib Require Import ZArith Lia List String Ascii.
From stdpp Require Import base list.
From Equations Require Import Equations.

Open Scope Z_scope.

(** ** Machine integers

    The target is an 8-bit AVR ([#include <avr/io.h>]); with avr-gcc [int]
    and [unsigned int] are 16 bits wide and [uint16_t] is [unsigned int].
    Conversions to an unsigned type reduce modulo [2^w]; conversions to a
    signed type wrap into [-2^(w-1) .. 2^(w-1)-1] (gcc's documented
    behaviour). *)

Module CInt.

Definition unsigned (w x : Z) : Z := x mod 2 ^ w.
Definition signed (w x : Z) : Z :=
  (x + 2 ^ (w - 1)) mod 2 ^ w - 2 ^ (w - 1).

Definition u8 : Z -> Z := unsigned 8.
Definition u16 : Z -> Z := unsigned 16.
Definition s8 : Z -> Z := signed 8.
Definition s16 : Z -> Z := signed 16.

(** Width of [int] and [unsigned int] on the target. *)
Definition INT_BITS : Z := 16.

End CInt.
Import CInt.

(** ** Program constants *)

Definition TASK_MAX : nat := 2.
Definition ADC_TASK : Z := 1.
Definition FREQ_TASK : Z := 2.
Definition OVF_MAX : Z := 156.

(** Bit numbers and constants of <avr/io.h> and <avr/sleep.h> for the
    ATmega328P, the device whose registers the program names. *)
Definition ADSC : Z := 6.
Definition PD2 : Z := 2.
Definition SE : Z := 0.
Definition SM0 : Z := 1.
Definition SM1 : Z := 2.
Definition SM2 : Z := 3.
Definition SLEEP_MODE_STANDBY : Z := Z.shiftl 6 1.

(** Character codes of a string literal, without the terminating NUL. *)
Definition chars (s : string) : list Z :=
  map (fun a => Z.of_nat (nat_of_ascii a)) (list_ascii_of_string s).

Definition NUL : Z := 0.
Definition CR : Z := 13.
Definition LF : Z := 10.

(** [const char *msg = "Frequency is ";] and
    [const char *end_msg = " Hz\r\n";]: the arrays the pointers refer to,
    terminator included. *)
Definition msg : list Z := chars "Frequency is " ++ [NUL].
Definition end_msg : list Z := chars " Hz" ++ [CR; LF; NUL].

(** ** The task table and the program state *)

(** One entry of [task_list]:
    [struct { uint8_t task_number; int16_t delay; uint16_t interval; int8_t run; }]. *)
Record task : Type := mk_task {
  task_number : Z;
  delay : Z;
  interval : Z;
  run : Z
}.

Definition set_task_number (v : Z) (t : task) : task :=
  mk_task v (delay t) (interval t) (run t).
Definition set_delay (v : Z) (t : task) : task :=
  mk_task (task_number t) v (interval t) (run t).
Definition set_interval (v : Z) (t : task) : task :=
  mk_task (task_number t) (delay t) v (run t).
Definition set_run (v : Z) (t : task) : task :=
  mk_task (task_number t) (delay t) (interval t) v.

(** Calls of the task bodies, recorded in a ghost trace that no code
    reads: it only makes "was invoked" observable. *)
Inductive call : Type := Call_task_1 | Call_task_2.

(** The globals of main.c, the registers the modelled functions write, the
    bytes handed to the USART data register so far, and the ghost trace. *)
Record state : Type := mk_state {
  task_list : list task;
  frequency_control : Z;
  conversion_result : Z;
  overflows : Z;
  OCR1A : Z;
  ADMUX : Z;
  ADCSRA : Z;
  SMCR : Z;
  SREG_I : bool;
  sleeping : bool;
  UDR0 : list Z;
  calls : list call
}.

Definition set_task_list (v : list task) (s : state) : state :=
  mk_state v (frequency_control s) (conversion_result s) (overflows s)
    (OCR1A s) (ADMUX s) (ADCSRA s) (SMCR s) (SREG_I s) (sleeping s)
    (UDR0 s) (calls s).
Definition set_frequency_control (v : Z) (s : state) : state :=
  mk_state (task_list s) v (conversion_result s) (overflows s)
    (OCR1A s) (ADMUX s) (ADCSRA s) (SMCR s) (SREG_I s) (sleeping s)
    (UDR0 s) (calls s).
Definition set_conversion_result (v : Z) (s : state) : state :=
  mk_state (task_list s) (frequency_control s) v (overflows s)
    (OCR1A s) (ADMUX s) (ADCSRA s) (SMCR s) (SREG_I s) (sleeping s)
    (UDR0 s) (calls s).
Definition set_overflows (v : Z) (s : state) : state :=
  mk_state (task_list s) (frequency_control s) (conversion_result s) v
    (OCR1A s) (ADMUX s) (ADCSRA s) (SMCR s) (SREG_I s) (sleeping s)
    (UDR0 s) (calls s).
Definition set_OCR1A (v : Z) (s : state) : state :=
  mk_state (task_list s) (frequency_control s) (conversion_result s)
    (overflows s) v (ADMUX s) (ADCSRA s) (SMCR s) (SREG_I s)
    (sleeping s) (UDR0 s) (calls s).
Definition set_ADMUX (v : Z) (s : state) : state :=
  mk_state (task_list s) (frequency_control s) (conversion_result s)
    (overflows s) (OCR1A s) v (ADCSRA s) (SMCR s) (SREG_I s)
    (sleeping s) (UDR0 s) (calls s).
Definition set_ADCSRA (v : Z) (s : state) : state :=
  mk_state (task_list s) (frequency_control s) (conversion_result s)
    (overflows s) (OCR1A s) (ADMUX s) v (SMCR s) (SREG_I s)
    (sleeping s) (UDR0 s) (calls s).
Definition set_SMCR (v : Z) (s : state) : state :=
  mk_state (task_list s) (frequency_control s) (conversion_result s)
    (overflows s) (OCR1A s) (ADMUX s) (ADCSRA s) v (SREG_I s)
    (sleeping s) (UDR0 s) (calls s).
Definition set_SREG_I (v : bool) (s : state) : state :=
  mk_state (task_list s) (frequency_control s) (conversion_result s)
    (overflows s) (OCR1A s) (ADMUX s) (ADCSRA s) (SMCR s) v
    (sleeping s) (UDR0 s) (calls s).
Definition set_sleeping (v : bool) (s : state) : state :=
  mk_state (task_list s) (frequency_control s) (conversion_result s)
    (overflows s) (OCR1A s) (ADMUX s) (ADCSRA s) (SMCR s) (SREG_I s) v
    (UDR0 s) (calls s).
(** A write to the USART data register transmits one byte. *)
Definition write_UDR0 (c : Z) (s : state) : state :=
  mk_state (task_list s) (frequency_control s) (conversion_result s)
    (overflows s) (OCR1A s) (ADMUX s) (ADCSRA s) (SMCR s) (SREG_I s)
    (sleeping s) (UDR0 s ++ [c]) (calls s).
Definition record_call (c : call) (s : state) : state :=
  mk_state (task_list s) (frequency_control s) (conversion_result s)
    (overflows s) (OCR1A s) (ADMUX s) (ADCSRA s) (SMCR s) (SREG_I s)
    (sleeping s) (UDR0 s) (calls s ++ [c]).

(** The zero-initialised table entry and the state at program start:
    [frequency_control = 283], every other global zero. *)
Definition empty_task : task := mk_task 0 0 0 0.

Definition initial_state : state :=
  mk_state (replicate TASK_MAX empty_task) 283 0 0 0 0 0 0 false false [] [].

#[global] Instance task_inhabited : Inhabited task := populate empty_task.

(** [task_list[index].field = ...]: a read-modify-write of one entry.  An
    index outside the array is undefined behaviour in C and changes nothing
    here; every index the program uses is below [TASK_MAX]. *)
Definition store_task (index : nat) (f : task -> task) (s : state) : state :=
  set_task_list (alter f index (task_list s)) s.

(** [for (index = 0; index < n; index++) body] *)
Definition for_loop (n : nat) (body : nat -> state -> state) (s : state) : state :=
  foldl (fun s index => body index s) s (seq 0 n).

(** ** The ADC completion interrupt, [ISR(ADC_vect)]

    [adc] is the value read from the ADC data register.  The expression
    [124 + ((2499-124)*conversion_result) / 1000] multiplies an [int]
    constant by a [uint16_t]; the usual arithmetic conversions make the
    product, the quotient and the sum [unsigned int], so each is reduced
    modulo [2^w] for an [int] of [w] bits. *)
Definition ADC_vect_w (w : Z) (adc : Z) (s : state) : state :=
  let s := set_conversion_result adc s in
  let s :=
    if conversion_result s <? 50 then set_conversion_result 50 s
    else if conversion_result s >? 1000 then set_conversion_result 1000 s
    else s in
  let s :=
    set_frequency_control
      (u16 (unsigned w
              (124 + unsigned w ((2499 - 124) * conversion_result s) / 1000)))
      s in
  set_OCR1A (frequency_control s) s.

Definition ADC_vect : Z -> state -> state := ADC_vect_w INT_BITS.

(** The mapping as the specification words it: clamp, then
    [124 + (2499-124)*clamped/1000] over the integers. *)
Definition clamp (r lo hi : Z) : Z :=
  if r <? lo then lo else if r >? hi then hi else r.

Definition spec_frequency (r : Z) : Z :=
  124 + (2499 - 124) * clamp r 50 1000 / 1000.

(** ** The scheduler: [update], [add_task], [init_tasks] *)

(** Body of the loop of [update] for one [index]. *)
Definition update_body (index : nat) (s : state) : state :=
  if negb (task_number (task_list s !!! index) =? 0) then
    if delay (task_list s !!! index) =? 0 then
      let s := store_task index (fun t => set_run (s8 (run t + 1)) t) s in
      if negb (interval (task_list s !!! index) =? 0) then
        store_task index (fun t => set_delay (s16 (interval t)) t) s
      else s
    else
      store_task index (fun t => set_delay (s16 (delay t - 1)) t) s
  else s.

Definition update (s : state) : state := for_loop TASK_MAX update_body s.

(** [ISR (TIMER2_OVF_vect)]: the comparison uses the value of [overflows]
    before the increment. *)
Definition TIMER2_OVF_vect (s : state) : state :=
  let old := overflows s in
  let s := set_overflows (u16 (old + 1)) s in
  if old >=? OVF_MAX then set_overflows 0 (update s) else s.

(** [add_task(uint8_t number, uint8_t task_number, int16_t delay,
    int16_t interval)]: the arguments are converted to the parameter types,
    and [interval] once more to the [uint16_t] field. *)
Definition add_task (number task_number delay interval : Z) (s : state) : state :=
  let number := Z.to_nat (u8 number) in
  let s := store_task number (set_task_number (u8 task_number)) s in
  let s := store_task number (set_delay (s16 delay)) s in
  store_task number (set_interval (u16 (s16 interval))) s.

Definition init_tasks_body (index : nat) (s : state) : state :=
  let s := store_task index (set_task_number 0) s in
  let s := add_task 0 ADC_TASK 0 100 s in
  add_task 1 FREQ_TASK 50 100 s.

Definition init_tasks (s : state) : state := for_loop TASK_MAX init_tasks_body s.

(** ** The task bodies *)

(** [send_string_direct]: transmit the characters found from the pointer on,
    up to the first NUL.  [str] is the array the pointer refers to; the
    wait for the transmitter ([UDRE0]) changes no modelled state.  Running
    off the array without meeting a NUL is undefined behaviour in C (the
    [nil] case); every array passed here holds a NUL. *)
Fixpoint send_string_direct (str : list Z) (s : state) : state :=
  match str with
  | [] => s
  | c :: str' =>
      if c =? NUL then s else send_string_direct str' (write_UDR0 c s)
  end.

(** [task_1]: select channel 0 and start a conversion. *)
Definition task_1 (s : state) : state :=
  let s := record_call Call_task_1 s in
  let s := set_ADMUX (Z.lor (Z.land (ADMUX s) 240) (Z.land 0 15)) s in
  set_ADCSRA (Z.lor (ADCSRA s) (Z.shiftl 1 ADSC)) s.

(** The [do ... while (conversion_result > 0)] loop of [task_2]: it writes
    the digits of [conversion_result] into [str] from index [i] on, least
    significant first, dividing the global itself by ten on each round.
    Returns the state, the buffer and the final [i]. *)
Equations? itoa_loop (s : state) (str : list Z) (i : nat) : state * list Z * nat
  by wf (Z.to_nat (conversion_result s)) lt :=
  itoa_loop s str i
    with Z_lt_dec 0 (conversion_result s / 10) => {
    | left _ :=
        itoa_loop (set_conversion_result (conversion_result s / 10) s)
          (<[i := conversion_result s mod 10 + 48]> str) (S i);
    | right _ :=
        (set_conversion_result (conversion_result s / 10) s,
         <[i := conversion_result s mod 10 + 48]> str, S i) }.
Proof. clear itoa_loop. Z.div_mod_to_equations. lia. Qed.

(** The [for (j = 0, k = i - 1; j < k; j++, k--)] loop of [task_2]: swap
    [str[j]] and [str[k]] and move both indices inwards. *)
Equations? reverse_loop (str : list Z) (j k : nat) : list Z
  by wf (k - j)%nat lt :=
  reverse_loop str j k with lt_dec j k => {
    | left _ :=
        reverse_loop (<[k := str !!! j]> (<[j := str !!! k]> str))
          (S j) (k - 1)%nat;
    | right _ := str }.
Proof. lia. Qed.

(** [task_2], with [str0] the indeterminate initial contents of the local
    array [char str[10]]. *)
Definition task_2_from (str0 : list Z) (s : state) : state :=
  let s := record_call Call_task_2 s in
  let s := send_string_direct msg s in
  let '(s, str, i) := itoa_loop s str0 0 in
  let str := <[i := NUL]> str in
  let str := reverse_loop str 0 (i - 1) in
  let s := send_string_direct str s in
  send_string_direct end_msg s.

(** No element of [str] is read before it is written
    ([task_2_from_indeterminate] below), so one representative of the
    initial contents stands for all. *)
Definition task_2 (s : state) : state := task_2_from (replicate 10 0) s.

(** ** The dispatcher, [task_manager] *)

Definition task_manager_body (index : nat) (s : state) : state :=
  if negb (task_number (task_list s !!! index) =? 0) then
    if run (task_list s !!! index) >? 0 then
      let s :=
        if task_number (task_list s !!! index) =? ADC_TASK then task_1 s
        else if task_number (task_list s !!! index) =? FREQ_TASK then task_2 s
        else s in
      store_task index (fun t => set_run (s8 (run t - 1)) t) s
    else s
  else s.

Definition task_manager (s : state) : state :=
  for_loop TASK_MAX task_manager_body s.

(** ** Sleep: [go_sleep], [ISR(PCINT2_vect)] and the main loop

    The macros of <avr/sleep.h> and <avr/interrupt.h> act on [SMCR] and on
    the I flag of [SREG]. *)
Definition set_sleep_mode (mode : Z) (s : state) : state :=
  set_SMCR
    (Z.lor (Z.land (SMCR s)
              (Z.land 255 (Z.lnot (Z.lor (Z.shiftl 1 SM0)
                                     (Z.lor (Z.shiftl 1 SM1) (Z.shiftl 1 SM2))))))
       mode) s.
Definition cli (s : state) : state := set_SREG_I false s.
Definition sei (s : state) : state := set_SREG_I true s.
Definition sleep_enable (s : state) : state :=
  set_SMCR (Z.lor (SMCR s) (Z.shiftl 1 SE)) s.
Definition sleep_disable (s : state) : state :=
  set_SMCR (Z.land (SMCR s) (Z.land 255 (Z.lnot (Z.shiftl 1 SE)))) s.
(** The SLEEP instruction halts the CPU when the SE bit is set. *)
Definition sleep_cpu (s : state) : state :=
  if Z.testbit (SMCR s) SE then set_sleeping true s else s.

(** [ISR(PCINT2_vect)] has an empty body. *)
Definition PCINT2_vect (s : state) : state := s.

(** The pin-change interrupt resumes a halted CPU and runs its handler. *)
Definition wake (s : state) : state := PCINT2_vect (set_sleeping false s).

(** [go_sleep] up to and including the SLEEP instruction. *)
Definition go_sleep_enter (s : state) : state :=
  let s := set_sleep_mode SLEEP_MODE_STANDBY s in
  let s := cli s in
  let s := sleep_enable s in
  let s := sei s in
  sleep_cpu s.

(** One call of [go_sleep]: entry, the wake interrupt, and the rest of the
    function after the SLEEP instruction. *)
Definition go_sleep (s : state) : state :=
  sleep_disable (wake (go_sleep_enter s)).

(** One round of the [while (1)] loop of [main]; [pind] is the value read
    from the input register [PIND]. *)
Definition main_loop_body (pind : Z) (s : state) : state :=
  let s := task_manager s in
  if Z.land pind (Z.shiftl 1 PD2) =? 0 then go_sleep s else s.

(** The writes of [setup_system] to the modelled registers and globals
    ([REFS0] = 6, [ADLAR] = 5, [ADPS2..0] = 2..0, [ADIE] = 3, [ADEN] = 7). *)
Definition setup_system (s : state) : state :=
  let s := set_OCR1A (frequency_control s) s in
  let s := set_ADMUX (Z.lor (ADMUX s) (Z.shiftl 1 6)) s in
  let s := set_ADMUX (Z.land (ADMUX s) (Z.land 255 (Z.lnot (Z.shiftl 1 5)))) s in
  let s := set_ADCSRA (Z.lor (ADCSRA s) 7) s in
  let s := set_ADCSRA (Z.lor (ADCSRA s) (Z.shiftl 1 3)) s in
  let s := set_ADCSRA (Z.lor (ADCSRA s) (Z.shiftl 1 7)) s in
  sei s.

(** The state in which [main] enters its loop. *)
Definition boot : state := setup_system (init_tasks initial_state).

(** ** Specification-level definitions *)

(** Bytes transmitted between an earlier state [s] and a later one [s']. *)
Definition transmitted (s s' : state) : list Z :=
  drop (length (UDR0 s)) (UDR0 s').

(** Decimal rendering, most significant digit first, no leading zeros. *)
Equations? decimal (v : Z) : list Z by wf (Z.to_nat v) lt :=
  decimal v with Z_lt_dec v 10 => {
    | left _ := [v + 48];
    | right _ := decimal (v / 10) ++ [v mod 10 + 48] }.
Proof. Z.div_mod_to_equations. lia. Qed.

(** The number a string of digit characters denotes. *)
Definition decimal_value (ds : list Z) : Z :=
  foldl (fun acc c => 10 * acc + (c - 48)) 0 ds.

Definition is_digit (c : Z) : Prop := 48 <= c <= 57.

(** [ds] is the decimal rendering of [v] without leading zeros. *)
Definition is_decimal_of (v : Z) (ds : list Z) : Prop :=
  ds <> [] /\ Forall is_digit ds /\ (head ds = Some 48 -> ds = [48]) /\
  decimal_value ds = v.

(** A report line for the number [v]. *)
Definition report (v : Z) : list Z :=
  chars "Frequency is " ++ decimal v ++ chars " Hz" ++ [CR; LF].

(** [transmit out s]: [s] after the bytes [out] went to the USART. *)
Definition transmit (out : list Z) (s : state) : state :=
  mk_state (task_list s) (frequency_control s) (conversion_result s)
    (overflows s) (OCR1A s) (ADMUX s) (ADCSRA s) (SMCR s) (SREG_I s)
    (sleeping s) (UDR0 s ++ out) (calls s).

(** The characters of the C string stored in an array. *)
Fixpoint c_string (str : list Z) : list Z :=
  match str with
  | [] => []
  | c :: str' => if c =? NUL then [] else c :: c_string str'
  end.

(** What [task_2] does to a state whose [conversion_result] is a
    [uint16_t] value: one report line for that value is transmitted and the
    variable is left at zero. *)
Definition task_2_effect (s : state) : state :=
  mk_state (task_list s) (frequency_control s) 0 (overflows s) (OCR1A s)
    (ADMUX s) (ADCSRA s) (SMCR s) (SREG_I s) (sleeping s)
    (UDR0 s ++ report (conversion_result s)) (calls s ++ [Call_task_2]).

(** What one round of [update] does to a table entry. *)
Definition update_task (t : task) : task :=
  if task_number t =? 0 then t
  else if delay t =? 0 then
    let t := set_run (s8 (run t + 1)) t in
    if interval t =? 0 then t else set_delay (s16 (interval t)) t
  else set_delay (s16 (delay t - 1)) t.

(** An entry the dispatcher acts on: occupied, with a pending run. *)
Definition runnable (t : task) : bool :=
  negb (task_number t =? 0) && (run t >? 0).

(** The task body the dispatcher associates with a task identifier. *)
Definition body_of (id : Z) : list call :=
  if id =? ADC_TASK then [Call_task_1]
  else if id =? FREQ_TASK then [Call_task_2]
  else [].

(** The calls one dispatch pass makes for an entry, and the entry after
    the pass. *)
Definition dispatched (t : task) : list call :=
  if runnable t then body_of (task_number t) else [].

Definition drain_task (t : task) : task :=
  if runnable t then set_run (run t - 1) t else t.

(** The values of an entry fit the C types of its fields. *)
Definition task_typed (t : task) : bool :=
  (0 <=? task_number t) && (task_number t <? 256) &&
  (-32768 <=? delay t) && (delay t <? 32768) &&
  (0 <=? interval t) && (interval t <? 65536) &&
  (-128 <=? run t) && (run t <? 128).

Definition table_typed (l : list task) : bool :=
  (length l =? TASK_MAX)%nat && forallb task_typed l.

(** One tick followed by one dispatch pass: the dispatcher keeps up with
    the ticks. *)
Definition tick_and_dispatch (s : state) : state := task_manager (update s).

(** One tick and one dispatch pass, seen from a single table entry. *)
Definition slot_step (t : task) : task := drain_task (update_task t).

(** The state just before tick [n] (ticks are counted from 1) when the
    dispatcher has kept up with every earlier tick, and whether tick [n]
    increments the pending-run count of the entry in [slot]. *)
Definition before_tick (s0 : state) (n : nat) : state :=
  Nat.iter (n - 1) tick_and_dispatch s0.

Definition fires (s0 : state) (slot : nat) (n : nat) : bool :=
  run (task_list (before_tick s0 n) !!! slot) <?
  run (task_list (update (before_tick s0 n)) !!! slot).

(** The remaining delay, after [n] ticks with the dispatcher keeping up,
    of an occupied entry registered with delay [d] and interval [k]. *)
Definition delay_after (d k n : Z) : Z :=
  if n <=? d then d - n else k - (n - d - 1) mod (k + 1).

(** An occupied periodic entry with no pending run and [x] ticks of
    delay left. *)
Definition periodic_entry (id k x : Z) : task := mk_task id x k 0.

(** The steps the running program takes: a round of the main loop or one
    of the interrupt handlers; an ADC interrupt delivers a 10-bit value. *)
Inductive step : state -> state -> Prop :=
| step_main pind s : step s (main_loop_body pind s)
| step_tick s : step s (TIMER2_OVF_vect s)
| step_adc r s : 0 <= r <= 1023 -> step s (ADC_vect r s)
| step_pcint s : step s (PCINT2_vect s).

(** The states of a run: from the start of [main], through
    initialisation, and on by steps. *)
Inductive reachable : state -> Prop :=
| reachable_start : reachable initial_state
| reachable_init : reachable (init_tasks initial_state)
| reachable_boot : reachable boot
| reachable_step s s' : reachable s -> step s s' -> reachable s'.

(** The task body the dispatcher runs for a task identifier, and the
    bodies run, in table order, for the entries of a table that are
    occupied and pending. *)
Definition run_body (id : Z) (s : state) : state :=
  if id =? ADC_TASK then task_1 s
  else if id =? FREQ_TASK then task_2 s
  else s.

Definition run_bodies (l : list task) (s : state) : state :=
  foldl (fun x t => if runnable t then run_body (task_number t) x else x) s l.

(** The states of the running program: from the state in which [main]
    enters its loop, on by steps. *)
Inductive running : state -> Prop :=
| running_boot : running boot
| running_step s s' : running s -> step s s' -> running s'.

(** The number of ticks, among the first [n], at which an occupied entry
    registered with delay [d] and interval [k] is made runnable. *)
Definition fired_by (d k n : Z) : Z :=
  if n <=? d then 0 else (n - d - 1) / (k + 1) + 1.

(** * Properties *)

(** ** Machine integers *)

Lemma u16_range x : 0 <= u16 x < 65536.
Proof. unfold u16, unsigned. apply Z.mod_pos_bound. reflexivity. Qed.

Lemma u16_small x : 0 <= x < 65536 -> u16 x = x.
Proof. intros H. unfold u16, unsigned. apply Z.mod_small. exact H. Qed.

Lemma s8_small x : -128 <= x < 128 -> s8 x = x.
Proof.
  intros H. unfold s8, signed. change (2 ^ (8 - 1)) with 128.
  change (2 ^ 8) with 256. rewrite Z.mod_small; lia.
Qed.

Lemma s16_small x : -32768 <= x < 32768 -> s16 x = x.
Proof.
  intros H. unfold s16, signed. change (2 ^ (16 - 1)) with 32768.
  change (2 ^ 16) with 65536. rewrite Z.mod_small; lia.
Qed.

Lemma s8_range x : -128 <= s8 x < 128.
Proof.
  unfold s8, signed. change (2 ^ (8 - 1)) with 128. change (2 ^ 8) with 256.
  pose proof (Z.mod_pos_bound (x + 128) 256). lia.
Qed.

Lemma s16_range x : -32768 <= s16 x < 32768.
Proof.
  unfold s16, signed. change (2 ^ (16 - 1)) with 32768.
  change (2 ^ 16) with 65536.
  pose proof (Z.mod_pos_bound (x + 32768) 65536). lia.
Qed.

Lemma unsigned_small w x : 0 <= x < 2 ^ w -> unsigned w x = x.
Proof. intros H. unfold unsigned. apply Z.mod_small. exact H. Qed.

(** ** The ADC completion interrupt *)

Section ADC.

Lemma clamp_range r : 50 <= clamp r 50 1000 <= 1000.
Proof.
  unfold clamp.
  destruct (Z.ltb_spec r 50); [lia|].
  destruct (Z.gtb_spec r 1000); lia.
Qed.

(** The handler leaves the clamped input in [conversion_result]. *)
Lemma ADC_vect_w_conversion_result w r s :
  conversion_result (ADC_vect_w w r s) = clamp r 50 1000.
Proof.
  unfold ADC_vect_w, clamp. cbn.
  destruct (r <? 50); [reflexivity|].
  destruct (r >? 1000); reflexivity.
Qed.

Lemma ADC_vect_w_frequency_control w r s :
  frequency_control (ADC_vect_w w r s) =
  u16 (unsigned w (124 + unsigned w (2375 * clamp r 50 1000) / 1000)).
Proof.
  unfold ADC_vect_w, clamp. cbn.
  destruct (r <? 50); [reflexivity|].
  destruct (r >? 1000); reflexivity.
Qed.

(** What the 16-bit arithmetic of the target computes: the product is
    taken modulo 65536 before the division. *)
Lemma ADC_vect_frequency_control r s :
  frequency_control (ADC_vect r s) =
  124 + (2375 * clamp r 50 1000) mod 65536 / 1000.
Proof.
  unfold ADC_vect. rewrite ADC_vect_w_frequency_control.
  unfold INT_BITS, unsigned. change (2 ^ 16) with 65536.
  pose proof (clamp_range r) as Hc.
  set (p := (2375 * clamp r 50 1000) mod 65536).
  assert (0 <= p < 65536) by (apply Z.mod_pos_bound; lia).
  assert (0 <= p / 1000 <= 65) by (Z.div_mod_to_equations; lia).
  rewrite (Z.mod_small (124 + p / 1000)) by lia.
  apply u16_small. lia.
Qed.

Lemma ADC_vect_frequency_control_bounds r s :
  124 <= frequency_control (ADC_vect r s) <= 189.
Proof.
  rewrite ADC_vect_frequency_control.
  pose proof (Z.mod_pos_bound (2375 * clamp r 50 1000) 65536).
  Z.div_mod_to_equations. lia.
Qed.

(** With an [int] of at least 23 bits the product does not wrap, and the
    handler computes the mapping of the specification. *)
Lemma ADC_vect_w_wide w r s :
  23 <= w ->
  frequency_control (ADC_vect_w w r s) = spec_frequency r.
Proof.
  intros Hw. rewrite ADC_vect_w_frequency_control. unfold spec_frequency.
  change (2499 - 124) with 2375.
  pose proof (clamp_range r) as Hc.
  assert (2 ^ 23 <= 2 ^ w) as Hp by (apply Z.pow_le_mono_r; lia).
  change (2 ^ 23) with 8388608 in Hp.
  rewrite (unsigned_small w (2375 * _)) by lia.
  assert (0 <= 2375 * clamp r 50 1000 / 1000 <= 2375)
    by (Z.div_mod_to_equations; lia).
  rewrite unsigned_small by lia.
  apply u16_small. lia.
Qed.

(** On the target the handler never computes the mapping of the
    specification: the product wraps for every clamped input. *)
Lemma ADC_vect_never_spec r s :
  frequency_control (ADC_vect r s) < spec_frequency r.
Proof.
  pose proof (ADC_vect_frequency_control_bounds r s).
  unfold spec_frequency. change (2499 - 124) with 2375.
  pose proof (clamp_range r).
  Z.div_mod_to_equations. lia.
Qed.

End ADC.

(** C1 (the code departs from it): for a raw conversion value of 1023 the
    handler clamps to 1000 and then sets the Frequency Control Value to
    139, not to 2499 = 124 + 2375*1000/1000: the product 2375*1000 is
    formed in 16-bit unsigned arithmetic and wraps to 15704. *)
Theorem ADC_vect_full_scale (s : state) :
  conversion_result (ADC_vect 1023 s) = 1000 /\
  frequency_control (ADC_vect 1023 s) = 139 /\
  OCR1A (ADC_vect 1023 s) = 139 /\
  spec_frequency 1023 = 2499.
Proof. repeat split. Qed.

(** ** Serial transmission *)

Section Transmit.

Lemma transmit_nil s : transmit [] s = s.
Proof. destruct s. unfold transmit. cbn. rewrite app_nil_r. reflexivity. Qed.

Lemma transmit_app a b s : transmit b (transmit a s) = transmit (a ++ b) s.
Proof. unfold transmit. cbn. rewrite app_assoc. reflexivity. Qed.

Lemma write_UDR0_transmit c s : write_UDR0 c s = transmit [c] s.
Proof. reflexivity. Qed.

Lemma transmit_set_conversion_result out v s :
  transmit out (set_conversion_result v s) =
  set_conversion_result v (transmit out s).
Proof. reflexivity. Qed.

(** [send_string_direct] transmits exactly the C string in the array. *)
Lemma send_string_direct_transmit str s :
  send_string_direct str s = transmit (c_string str) s.
Proof.
  revert s. induction str as [|c str IH]; intros s; cbn.
  - symmetry. apply transmit_nil.
  - destruct (c =? NUL).
    + symmetry. apply transmit_nil.
    + rewrite IH, write_UDR0_transmit, transmit_app. reflexivity.
Qed.

Lemma c_string_terminated l rest :
  Forall (fun c => c <> NUL) l -> c_string (l ++ NUL :: rest) = l.
Proof.
  induction 1 as [|c l Hc _ IH]; cbn.
  - reflexivity.
  - destruct (Z.eqb_spec c NUL); [contradiction|]. rewrite IH. reflexivity.
Qed.

Lemma transmitted_transmit out s : transmitted s (transmit out s) = out.
Proof. unfold transmitted, transmit. cbn. apply drop_app_length. Qed.

End Transmit.

(** ** Decimal rendering *)

Section Decimal.

Lemma decimal_small v : v < 10 -> decimal v = [v + 48].
Proof.
  intros H. rewrite (decimal_equation_1 v).
  destruct (Z_lt_dec v 10); [reflexivity|lia].
Qed.

Lemma decimal_big v :
  10 <= v -> decimal v = decimal (v / 10) ++ [v mod 10 + 48].
Proof.
  intros H. rewrite (decimal_equation_1 v).
  destruct (Z_lt_dec v 10); [lia|reflexivity].
Qed.

(** Induction along the digits of a non-negative number. *)
Lemma digits_ind (P : Z -> Prop) :
  (forall v, 0 <= v < 10 -> P v) ->
  (forall v, 10 <= v -> P (v / 10) -> P v) ->
  forall v, 0 <= v -> P v.
Proof.
  intros Hsmall Hbig v. 
  induction v as [v IH] using (well_founded_induction (Z.lt_wf 0)).
  intros Hv. destruct (Z_lt_dec v 10) as [Hlt|Hge].
  - apply Hsmall. lia.
  - apply Hbig; [lia|]. apply IH; Z.div_mod_to_equations; lia.
Qed.

Lemma decimal_nonempty v : decimal v <> [].
Proof.
  destruct (Z_lt_dec v 10).
  - rewrite decimal_small by lia. discriminate.
  - rewrite decimal_big by lia. intros H. apply app_eq_nil in H as [_ H].
    discriminate.
Qed.

Lemma decimal_digits v : 0 <= v -> Forall is_digit (decimal v).
Proof.
  intros Hv. pattern v. apply digits_ind; [| |exact Hv]; clear v Hv.
  - intros v Hv. rewrite decimal_small by lia. constructor; [|constructor].
    unfold is_digit. lia.
  - intros v Hv IH. rewrite decimal_big by lia. apply Forall_app. split; [exact IH|].
    constructor; [|constructor]. unfold is_digit. Z.div_mod_to_equations. lia.
Qed.

Lemma decimal_value_snoc ds c :
  decimal_value (ds ++ [c]) = 10 * decimal_value ds + (c - 48).
Proof. unfold decimal_value. rewrite foldl_snoc. reflexivity. Qed.

(** Reading the rendering back gives the number. *)
Lemma decimal_value_decimal v : 0 <= v -> decimal_value (decimal v) = v.
Proof.
  intros Hv. pattern v. apply digits_ind; [| |exact Hv]; clear v Hv.
  - intros v Hv. rewrite decimal_small by lia. cbn. lia.
  - intros v Hv IH. rewrite decimal_big by lia.
    rewrite decimal_value_snoc, IH. Z.div_mod_to_equations. lia.
Qed.

(** Only the number zero is rendered with a leading zero digit. *)
Lemma decimal_head v : 0 <= v -> head (decimal v) = Some 48 -> v = 0.
Proof.
  intros Hv. pattern v. apply digits_ind; [| |exact Hv]; clear v Hv.
  - intros v Hv. rewrite decimal_small by lia. cbn. intros [=]. lia.
  - intros v Hv IH. rewrite decimal_big by lia.
    pose proof (decimal_nonempty (v / 10)) as Hne.
    destruct (decimal (v / 10)) as [|d ds]; [contradiction|].
    cbn in *. intros H. specialize (IH H). Z.div_mod_to_equations. lia.
Qed.

Lemma decimal_is_decimal_of v : 0 <= v -> is_decimal_of v (decimal v).
Proof.
  intros Hv. unfold is_decimal_of. repeat split.
  - apply decimal_nonempty.
  - apply decimal_digits, Hv.
  - intros H. apply decimal_head in H; [|exact Hv]. subst v. reflexivity.
  - apply decimal_value_decimal, Hv.
Qed.

Lemma decimal_length_bound (n : nat) v :
  0 <= v < 10 ^ Z.of_nat (S n) -> (length (decimal v) <= S n)%nat.
Proof.
  revert v. induction n as [|n IH]; intros v Hv.
  - change (10 ^ Z.of_nat 1) with 10 in Hv. rewrite decimal_small by lia.
    cbn. lia.
  - destruct (Z_lt_dec v 10).
    + rewrite decimal_small by lia. cbn. lia.
    + rewrite decimal_big by lia. rewrite length_app. cbn.
      assert (0 <= v / 10 < 10 ^ Z.of_nat (S n)) as H.
      { rewrite (Nat2Z.inj_succ (S n)), Z.pow_succ_r in Hv by lia.
        Z.div_mod_to_equations. lia. }
      specialize (IH _ H). lia.
Qed.

(** A [uint16_t] has at most five decimal digits. *)
Lemma decimal_length_u16 v : 0 <= v < 65536 -> (length (decimal v) <= 5)%nat.
Proof.
  intros Hv. apply (decimal_length_bound 4).
  change (10 ^ Z.of_nat 5) with 100000. lia.
Qed.

Lemma decimal_no_NUL v : 0 <= v -> Forall (fun c => c <> NUL) (decimal v).
Proof.
  intros Hv. eapply Forall_impl; [apply decimal_digits, Hv|].
  unfold is_digit, NUL. cbn. intros c Hc. lia.
Qed.

End Decimal.

(** ** The reporting task *)

Section Report.

Lemma insert_middle {A} (pre : list A) x post d :
  <[length pre := d]> (pre ++ x :: post) = pre ++ d :: post.
Proof.
  replace (length pre) with (length pre + 0)%nat by lia.
  rewrite insert_app_r. reflexivity.
Qed.

Lemma itoa_loop_continue s str i :
  0 < conversion_result s / 10 ->
  itoa_loop s str i =
  itoa_loop (set_conversion_result (conversion_result s / 10) s)
    (<[i := conversion_result s mod 10 + 48]> str) (S i).
Proof.
  intros H. rewrite (itoa_loop_equation_1 s str i).
  destruct (Z_lt_dec 0 (conversion_result s / 10)); [reflexivity|lia].
Qed.

Lemma itoa_loop_exit s str i :
  ~ 0 < conversion_result s / 10 ->
  itoa_loop s str i =
  (set_conversion_result (conversion_result s / 10) s,
   <[i := conversion_result s mod 10 + 48]> str, S i).
Proof.
  intros H. rewrite (itoa_loop_equation_1 s str i).
  destruct (Z_lt_dec 0 (conversion_result s / 10)); [lia|reflexivity].
Qed.

(** Whatever the state, the digit loop changes no global other than
    [conversion_result]. *)
Lemma itoa_loop_frame s str i :
  exists v, (itoa_loop s str i).1.1 = set_conversion_result v s.
Proof.
  remember (Z.to_nat (conversion_result s)) as n eqn:Hn.
  revert s str i Hn.
  induction n as [n IH] using lt_wf_ind. intros s str i Hn.
  destruct (Z_lt_dec 0 (conversion_result s / 10)) as [Hlt|Hge].
  - rewrite itoa_loop_continue by exact Hlt.
    assert (Z.to_nat (conversion_result s / 10) < n)%nat as Hm
      by (subst n; Z.div_mod_to_equations; lia).
    destruct (IH _ Hm (set_conversion_result (conversion_result s / 10) s)
                (<[i := conversion_result s mod 10 + 48]> str) (S i) eq_refl)
      as [v Hv].
    exists v. rewrite Hv. reflexivity.
  - rewrite itoa_loop_exit by exact Hge. eexists. reflexivity.
Qed.

(** The digit loop on a [uint16_t]-like value: the digits of the value
    are laid down least significant first from index [length pre] on, and
    the global ends at zero. *)
Lemma itoa_loop_digits v :
  0 <= v ->
  forall s pre junk,
    conversion_result s = v ->
    (length (decimal v) <= length junk)%nat ->
    itoa_loop s (pre ++ junk) (length pre) =
    (set_conversion_result 0 s,
     pre ++ reverse (decimal v) ++ drop (length (decimal v)) junk,
     (length pre + length (decimal v))%nat).
Proof.
  intros Hv. pattern v. apply digits_ind; [| |exact Hv]; clear v Hv.
  - intros v Hv s pre junk Hs Hlen.
    rewrite decimal_small in * by lia. cbn in Hlen.
    destruct junk as [|x junk]; [cbn in Hlen; lia|].
    rewrite itoa_loop_exit by (rewrite Hs; Z.div_mod_to_equations; lia).
    rewrite insert_middle, Hs.
    replace (v / 10) with 0 by (Z.div_mod_to_equations; lia).
    replace (v mod 10) with v by (Z.div_mod_to_equations; lia).
    cbn. rewrite drop_0. repeat f_equal. lia.
  - intros v Hv IH s pre junk Hs Hlen.
    rewrite decimal_big in * by lia. rewrite length_app in *. cbn in Hlen.
    destruct junk as [|x junk]; [cbn in Hlen; lia|].
    rewrite itoa_loop_continue by (rewrite Hs; Z.div_mod_to_equations; lia).
    rewrite insert_middle, Hs.
    replace (pre ++ v mod 10 + 48 :: junk)
      with ((pre ++ [v mod 10 + 48]) ++ junk) by (rewrite <- app_assoc; reflexivity).
    replace (S (length pre)) with (length (pre ++ [v mod 10 + 48]))
      by (rewrite length_app; cbn; lia).
    rewrite (IH (set_conversion_result (v / 10) s) (pre ++ [v mod 10 + 48])
               junk eq_refl) by (cbn in *; lia).
    rewrite reverse_snoc, length_app, <- app_assoc. cbn.
    rewrite !Nat.add_1_r. cbn [drop]. f_equal. lia.
Qed.

Lemma reverse_loop_swap str j k :
  (j < k)%nat ->
  reverse_loop str j k =
  reverse_loop (<[k := str !!! j]> (<[j := str !!! k]> str)) (S j) (k - 1)%nat.
Proof.
  intros H. rewrite (reverse_loop_equation_1 str j k).
  destruct (lt_dec j k); [reflexivity|lia].
Qed.

Lemma reverse_loop_done str j k :
  ~ (j < k)%nat -> reverse_loop str j k = str.
Proof.
  intros H. rewrite (reverse_loop_equation_1 str j k).
  destruct (lt_dec j k); [lia|reflexivity].
Qed.

(** The swap loop reverses the segment between its two indices and
    leaves the rest of the array alone. *)
Lemma reverse_loop_segment (n : nat) :
  forall pre mid post,
    (length mid <= n)%nat ->
    reverse_loop (pre ++ mid ++ post) (length pre)
      (length pre + length mid - 1)%nat =
    pre ++ reverse mid ++ post.
Proof.
  induction n as [|n IH]; intros pre mid post Hn.
  - destruct mid; [|cbn in Hn; lia]. apply reverse_loop_done. cbn. lia.
  - destruct mid as [|a mid]; [apply reverse_loop_done; cbn; lia|].
    destruct mid as [|b mid _] using rev_ind;
      [apply reverse_loop_done; cbn; lia|].
    cbn in Hn. rewrite length_app in Hn. cbn in Hn.
    rewrite reverse_loop_swap by (cbn; rewrite length_app; cbn; lia).
    replace (length pre + length (a :: mid ++ [b]) - 1)%nat
      with (length (pre ++ a :: mid))
      by (cbn; rewrite !length_app; cbn; lia).
    replace (pre ++ (a :: mid ++ [b]) ++ post)
      with ((pre ++ a :: mid) ++ b :: post)
      by (cbn; rewrite <- !app_assoc; reflexivity).
    rewrite (list_lookup_total_middle (pre ++ a :: mid) post b _ eq_refl).
    rewrite <- (app_assoc pre (a :: mid)). cbn [app].
    rewrite (list_lookup_total_middle pre _ a _ eq_refl).
    rewrite insert_middle.
    replace (pre ++ b :: mid ++ b :: post)
      with ((pre ++ b :: mid) ++ b :: post)
      by (rewrite <- app_assoc; reflexivity).
    replace (length (pre ++ a :: mid)) with (length (pre ++ b :: mid))
      by (rewrite !length_app; reflexivity).
    rewrite insert_middle.
    replace ((pre ++ b :: mid) ++ a :: post)
      with ((pre ++ [b]) ++ mid ++ a :: post)
      by (rewrite <- !app_assoc; reflexivity).
    replace (S (length pre)) with (length (pre ++ [b]))
      by (rewrite length_app; cbn; lia).
    replace (length (pre ++ b :: mid) - 1)%nat
      with (length (pre ++ [b]) + length mid - 1)%nat
      by (rewrite !length_app; cbn; lia).
    rewrite IH by lia.
    rewrite reverse_cons, reverse_snoc, <- !app_assoc. reflexivity.
Qed.

(** [task_2] on a state whose [conversion_result] is a [uint16_t] value,
    whatever the initial contents of its local array. *)
Lemma task_2_from_effect str0 s :
  length str0 = 10%nat ->
  0 <= conversion_result s < 65536 ->
  task_2_from str0 s = task_2_effect s.
Proof.
  intros Hlen Hcr. unfold task_2_from.
  pose proof (decimal_length_u16 _ Hcr) as Hd.
  set (s1 := send_string_direct msg (record_call Call_task_2 s)).
  assert (conversion_result s1 = conversion_result s) as Hs1.
  { unfold s1. rewrite send_string_direct_transmit. reflexivity. }
  pose proof (itoa_loop_digits (conversion_result s) (proj1 Hcr) s1 [] str0 Hs1)
    as Hloop.
  cbn [app length] in Hloop. rewrite Hloop by lia. clear Hloop.
  set (ds := decimal (conversion_result s)) in *.
  assert (exists x rest, drop (length ds) str0 = x :: rest) as (x & rest & Hrest).
  { destruct (drop (length ds) str0) as [|x rest] eqn:E; [|eauto].
    apply (f_equal length) in E. rewrite length_drop in E. cbn in E. lia. }
  rewrite Hrest. cbn [Nat.add].
  replace (length ds) with (length (reverse ds)) at 1 by apply length_reverse.
  rewrite insert_middle.
  pose proof (reverse_loop_segment (length (reverse ds)) [] (reverse ds)
                (NUL :: rest) (Nat.le_refl _)) as Hrev.
  cbn [app length Nat.add] in Hrev. rewrite length_reverse in Hrev.
  rewrite Hrev, reverse_involutive. clear Hrev.
  rewrite !send_string_direct_transmit.
  rewrite c_string_terminated by apply decimal_no_NUL, Hcr.
  unfold s1. rewrite send_string_direct_transmit.
  destruct s. unfold task_2_effect, transmit, report. cbn.
  rewrite <- !app_assoc. reflexivity.
Qed.

(** The initial contents of the local array do not matter. *)
Lemma task_2_from_indeterminate str0 str1 s :
  length str0 = 10%nat -> length str1 = 10%nat ->
  0 <= conversion_result s < 65536 ->
  task_2_from str0 s = task_2_from str1 s.
Proof.
  intros H0 H1 Hcr. rewrite !task_2_from_effect by assumption. reflexivity.
Qed.

Lemma task_2_effect_ok s :
  0 <= conversion_result s < 65536 -> task_2 s = task_2_effect s.
Proof. apply task_2_from_effect. reflexivity. Qed.

(** Whatever the state and the array, [task_2] touches only
    [conversion_result], the USART and the call trace. *)
Lemma task_2_from_frame str0 s :
  exists v out,
    task_2_from str0 s =
    set_conversion_result v (transmit out (record_call Call_task_2 s)).
Proof.
  unfold task_2_from.
  rewrite (send_string_direct_transmit msg).
  set (s1 := transmit (c_string msg) (record_call Call_task_2 s)).
  destruct (itoa_loop_frame s1 str0 0) as [v Hv].
  destruct (itoa_loop s1 str0 0) as [[s2 str] i].
  change (s2 = set_conversion_result v s1) in Hv. subst s2 s1.
  rewrite !send_string_direct_transmit.
  rewrite !transmit_set_conversion_result, !transmit_app.
  eexists v, _. reflexivity.
Qed.

Lemma task_2_task_list s : task_list (task_2 s) = task_list s.
Proof.
  destruct (task_2_from_frame (replicate 10 0) s) as (v & out & H).
  unfold task_2. rewrite H. reflexivity.
Qed.

Lemma task_2_calls s : calls (task_2 s) = calls s ++ [Call_task_2].
Proof.
  destruct (task_2_from_frame (replicate 10 0) s) as (v & out & H).
  unfold task_2. rewrite H. reflexivity.
Qed.

Lemma task_2_frequency_control s :
  frequency_control (task_2 s) = frequency_control s.
Proof.
  destruct (task_2_from_frame (replicate 10 0) s) as (v & out & H).
  unfold task_2. rewrite H. reflexivity.
Qed.

(** The digit loop stops only when the global has reached zero. *)
Lemma itoa_loop_conversion_result v :
  0 <= v ->
  forall s str i,
    conversion_result s = v ->
    conversion_result (itoa_loop s str i).1.1 = 0.
Proof.
  intros Hv. pattern v. apply digits_ind; [| |exact Hv]; clear v Hv.
  - intros v Hv s str i Hs.
    rewrite itoa_loop_exit by (rewrite Hs; Z.div_mod_to_equations; lia).
    cbn. rewrite Hs. Z.div_mod_to_equations. lia.
  - intros v Hv IH s str i Hs.
    rewrite itoa_loop_continue by (rewrite Hs; Z.div_mod_to_equations; lia).
    apply IH. cbn. rewrite Hs. reflexivity.
Qed.

(** Two reports in a row: the second one is a report of zero. *)
Lemma task_2_twice s :
  0 <= conversion_result s < 65536 ->
  transmitted s (task_2 s) = report (conversion_result s) /\
  transmitted (task_2 s) (task_2 (task_2 s)) = report 0.
Proof.
  intros Hcr. rewrite (task_2_effect_ok s Hcr).
  rewrite (task_2_effect_ok (task_2_effect s)) by (cbn; lia).
  split.
  - unfold transmitted, task_2_effect. cbn. apply drop_app_length.
  - unfold transmitted. cbn. apply drop_app_length.
Qed.

(** Reports started from the same [conversion_result] are the same. *)
Lemma task_2_deterministic s1 s2 :
  0 <= conversion_result s1 < 65536 ->
  conversion_result s1 = conversion_result s2 ->
  transmitted s1 (task_2 s1) = transmitted s2 (task_2 s2).
Proof.
  intros H1 Heq. rewrite !task_2_effect_ok by lia.
  unfold transmitted, task_2_effect. cbn. rewrite !drop_app_length.
  rewrite Heq. reflexivity.
Qed.

(** [task_2] neither reads nor writes the task table. *)
Lemma itoa_loop_set_task_list L s str i :
  itoa_loop (set_task_list L s) str i =
  (set_task_list L (itoa_loop s str i).1.1,
   (itoa_loop s str i).1.2, (itoa_loop s str i).2).
Proof.
  remember (Z.to_nat (conversion_result s)) as n eqn:Hn.
  revert s str i Hn.
  induction n as [n IH] using lt_wf_ind. intros s str i Hn.
  destruct (Z_lt_dec 0 (conversion_result s / 10)) as [Hlt|Hge].
  - rewrite (itoa_loop_continue s) by exact Hlt.
    rewrite (itoa_loop_continue (set_task_list L s)) by exact Hlt.
    assert (Z.to_nat (conversion_result s / 10) < n)%nat as Hm
      by (subst n; Z.div_mod_to_equations; lia).
    exact (IH _ Hm (set_conversion_result (conversion_result s / 10) s)
             (<[i := conversion_result s mod 10 + 48]> str) (S i) eq_refl).
  - rewrite (itoa_loop_exit s) by exact Hge.
    rewrite (itoa_loop_exit (set_task_list L s)) by exact Hge.
    reflexivity.
Qed.

Lemma transmit_set_task_list out L s :
  transmit out (set_task_list L s) = set_task_list L (transmit out s).
Proof. reflexivity. Qed.

Lemma record_call_set_task_list c L s :
  record_call c (set_task_list L s) = set_task_list L (record_call c s).
Proof. reflexivity. Qed.

Lemma task_2_set_task_list L s :
  task_2 (set_task_list L s) = set_task_list L (task_2 s).
Proof.
  unfold task_2, task_2_from.
  rewrite !(send_string_direct_transmit msg).
  rewrite record_call_set_task_list, transmit_set_task_list.
  rewrite itoa_loop_set_task_list.
  destruct (itoa_loop (transmit (c_string msg) (record_call Call_task_2 s))
              (replicate 10 0) 0) as [[s2 str] i].
  cbn [fst snd]. rewrite !send_string_direct_transmit.
  rewrite !transmit_set_task_list. reflexivity.
Qed.

End Report.

(** C7, amended: the report is the prefix "Frequency is ", then the value
    that [conversion_result] (the clamped raw conversion result, not the
    Frequency Control Value) holds when the task starts, in decimal without
    leading zeros and most significant digit first, then " Hz\r\n". *)
Theorem task_2_report (str0 : list Z) (s : state) :
  length str0 = 10%nat ->
  0 <= conversion_result s < 65536 ->
  transmitted s (task_2_from str0 s) =
    chars "Frequency is " ++ decimal (conversion_result s) ++
    chars " Hz" ++ [CR; LF] /\
  is_decimal_of (conversion_result s) (decimal (conversion_result s)).
Proof.
  intros Hlen Hcr. split.
  - rewrite task_2_from_effect by assumption.
    unfold transmitted, task_2_effect. cbn [UDR0]. apply drop_app_length.
  - apply decimal_is_decimal_of. lia.
Qed.

Lemma task_2_report_witness :
  transmitted (ADC_vect 500 boot) (task_2 (ADC_vect 500 boot)) =
    chars "Frequency is 500 Hz" ++ [CR; LF] /\
  is_decimal_of 500 (chars "500").
Proof.
  apply (task_2_report (replicate 10 0) (ADC_vect 500 boot)).
  - reflexivity.
  - vm_compute. split; congruence.
Defined.

(** C7 as stated fails: after a conversion of 500 the Frequency Control
    Value is 131 and the task reports 500. *)
Lemma task_2_reports_conversion_result :
  frequency_control (ADC_vect 500 boot) = 131 /\
  transmitted (ADC_vect 500 boot) (task_2 (ADC_vect 500 boot)) =
    chars "Frequency is 500 Hz" ++ [CR; LF] /\
  transmitted (ADC_vect 500 boot) (task_2 (ADC_vect 500 boot)) <>
    chars "Frequency is " ++ decimal (frequency_control (ADC_vect 500 boot)) ++
    chars " Hz" ++ [CR; LF].
Proof.
  split; [reflexivity|]. split; [reflexivity|].
  vm_compute. discriminate.
Qed.

(** C9: after the Reporting Task the shared variable [conversion_result] is
    zero, whatever value it held and whatever the local array held: the
    digit loop divides the variable itself. *)
Theorem task_2_clears_conversion_result (str0 : list Z) (s : state) :
  0 <= conversion_result s ->
  conversion_result (task_2_from str0 s) = 0.
Proof.
  intros Hcr. unfold task_2_from.
  set (s1 := send_string_direct msg (record_call Call_task_2 s)).
  assert (conversion_result s1 = conversion_result s) as Hs1.
  { unfold s1. rewrite send_string_direct_transmit. reflexivity. }
  pose proof (itoa_loop_conversion_result _ Hcr s1 str0 0%nat Hs1) as H.
  destruct (itoa_loop s1 str0 0) as [[s2 str] i]. cbn in H.
  rewrite !send_string_direct_transmit. exact H.
Qed.

Lemma task_2_clears_conversion_result_witness :
  conversion_result (task_2 (ADC_vect 500 boot)) = 0.
Proof.
  apply (task_2_clears_conversion_result (replicate 10 0) (ADC_vect 500 boot)).
  vm_compute. congruence.
Defined.

(** C4 (the code departs from it): two invocations of the Reporting Task in
    a row, nothing running in between, after a conversion of 500.  The first
    transmits "Frequency is 500 Hz", the second "Frequency is 0 Hz". *)
Theorem task_2_not_idempotent :
  transmitted (ADC_vect 500 boot) (task_2 (ADC_vect 500 boot)) =
    chars "Frequency is 500 Hz" ++ [CR; LF] /\
  transmitted (task_2 (ADC_vect 500 boot))
    (task_2 (task_2 (ADC_vect 500 boot))) =
    chars "Frequency is 0 Hz" ++ [CR; LF] /\
  frequency_control (task_2 (ADC_vect 500 boot)) =
    frequency_control (ADC_vect 500 boot).
Proof. repeat split. Qed.

(** ** The task table: loops over the entries *)

Section Table.

Lemma for_loop_S n body s :
  for_loop (S n) body s = body n (for_loop n body s).
Proof. unfold for_loop. rewrite seq_S, foldl_snoc. reflexivity. Qed.

Lemma for_loop_preserves (P : state -> Prop) n body s :
  (forall i s, P s -> P (body i s)) -> P s -> P (for_loop n body s).
Proof.
  intros Hbody Hs. induction n as [|n IH]; [exact Hs|].
  rewrite for_loop_S. apply Hbody, IH.
Qed.

Lemma alter_lookup (f : task -> task) (i : nat) (l : list task) t :
  l !! i = Some t -> alter f i l = <[i := f t]> l.
Proof.
  intros H. rewrite list_insert_alter. apply list_alter_ext; [|reflexivity].
  intros x Hx. congruence.
Qed.

Lemma store_task_lookup f i s t :
  task_list s !! i = Some t ->
  store_task i f s = set_task_list (<[i := f t]> (task_list s)) s.
Proof. intros H. unfold store_task. rewrite (alter_lookup f i _ t H). reflexivity. Qed.

(** A loop whose round [i] rewrites entry [i] by [f] and appends the
    calls [g] of that entry, over a table whose entries satisfy [P]:
    after [n] rounds the first [n] entries are rewritten, in order. *)
Lemma for_loop_table (P : task -> Prop) f g body :
  (forall i s t,
      task_list s !! i = Some t -> P t ->
      task_list (body i s) = <[i := f t]> (task_list s) /\
      calls (body i s) = calls s ++ g t) ->
  forall n s,
    Forall P (task_list s) ->
    (n <= length (task_list s))%nat ->
    task_list (for_loop n body s) =
      (f <$> take n (task_list s)) ++ drop n (task_list s) /\
    calls (for_loop n body s) =
      calls s ++ concat (g <$> take n (task_list s)).
Proof.
  intros Hbody n s HP. induction n as [|n IH]; intros Hn.
  - cbn. rewrite drop_0, app_nil_r. split; reflexivity.
  - destruct IH as [IHt IHc]; [lia|].
    destruct (lookup_lt_is_Some_2 (task_list s) n) as [t Ht]; [lia|].
    assert (P t) as HPt by (eapply Forall_lookup; eassumption).
    assert (length (f <$> take n (task_list s)) = n) as Hlen
      by (rewrite length_fmap, length_take_le; lia).
    assert (task_list (for_loop n body s) !! n = Some t) as Hcur.
    { rewrite IHt, lookup_app_r by lia. rewrite Hlen, Nat.sub_diag.
      rewrite lookup_drop, Nat.add_0_r. exact Ht. }
    rewrite for_loop_S.
    destruct (Hbody n _ t Hcur HPt) as [Ht' Hc']. split.
    + rewrite Ht', IHt, (drop_S _ _ _ Ht), (take_S_r _ _ _ Ht), fmap_app.
      rewrite <- Hlen at 1. rewrite insert_middle, <- app_assoc. reflexivity.
    + rewrite Hc', IHc, (take_S_r _ _ _ Ht), fmap_app, concat_app.
      cbn. rewrite app_nil_r, app_assoc. reflexivity.
Qed.

Lemma for_loop_table_all (P : task -> Prop) f g body s :
  (forall i s t,
      task_list s !! i = Some t -> P t ->
      task_list (body i s) = <[i := f t]> (task_list s) /\
      calls (body i s) = calls s ++ g t) ->
  Forall P (task_list s) ->
  length (task_list s) = TASK_MAX ->
  task_list (for_loop TASK_MAX body s) = f <$> task_list s /\
  calls (for_loop TASK_MAX body s) = calls s ++ concat (g <$> task_list s).
Proof.
  intros Hbody HP Hlen.
  destruct (for_loop_table P f g body Hbody TASK_MAX s HP) as [Ht Hc]; [lia|].
  rewrite take_ge, drop_ge, app_nil_r in Ht by lia.
  rewrite take_ge in Hc by lia. split; assumption.
Qed.

(** The typing predicate, unfolded. *)
Lemma task_typed_spec t :
  task_typed t = true <->
  0 <= task_number t < 256 /\ -32768 <= delay t < 32768 /\
  0 <= interval t < 65536 /\ -128 <= run t < 128.
Proof. unfold task_typed. rewrite !andb_true_iff. lia. Qed.

Lemma table_typed_spec l :
  table_typed l = true <->
  length l = TASK_MAX /\ Forall (fun t => task_typed t = true) l.
Proof.
  unfold table_typed. rewrite andb_true_iff, Nat.eqb_eq.
  rewrite forallb_forall, Forall_forall.
  split; intros [H1 H2]; (split; [exact H1|]); intros x Hx; apply H2;
    apply list_elem_of_In; exact Hx.
Qed.

End Table.

(** ** The scheduler *)

Section Scheduler.

Lemma update_body_entry i s t :
  task_list s !! i = Some t ->
  update_body i s = set_task_list (<[i := update_task t]> (task_list s)) s.
Proof.
  intros Ht. pose proof (lookup_lt_Some _ _ _ Ht) as Hi.
  unfold update_body, update_task.
  rewrite (list_lookup_total_correct _ _ _ Ht).
  destruct (task_number t =? 0); cbn [negb].
  - rewrite list_insert_id by exact Ht. destruct s; reflexivity.
  - destruct (delay t =? 0).
    + rewrite (store_task_lookup _ _ _ _ Ht).
      cbn [task_list set_task_list].
      rewrite list_lookup_total_insert_eq by exact Hi.
      cbn [interval set_run].
      destruct (interval t =? 0); cbn [negb]; [reflexivity|].
      erewrite store_task_lookup
        by (cbn [task_list set_task_list]; apply list_lookup_insert_eq, Hi).
      cbn [task_list set_task_list]. rewrite list_insert_insert_eq.
      reflexivity.
    + rewrite (store_task_lookup _ _ _ _ Ht). reflexivity.
Qed.

(** [update] rewrites every entry by [update_task] and calls nothing. *)
Lemma update_table s :
  length (task_list s) = TASK_MAX ->
  task_list (update s) = update_task <$> task_list s /\
  calls (update s) = calls s.
Proof.
  intros Hlen.
  destruct (for_loop_table_all (fun _ => True) update_task (fun _ => [])
              update_body s) as [Ht Hc].
  - intros i s' t Hl _. rewrite (update_body_entry _ _ _ Hl).
    cbn. rewrite app_nil_r. split; reflexivity.
  - apply Forall_true. intros; exact I.
  - exact Hlen.
  - split; [exact Ht|]. unfold update. rewrite Hc.
    clear. induction (task_list s) as [|t l IH]; cbn.
    + apply app_nil_r.
    + exact IH.
Qed.

Lemma update_task_typed t :
  task_typed t = true -> task_typed (update_task t) = true.
Proof.
  rewrite !task_typed_spec. intros (H1 & H2 & H3 & H4). unfold update_task.
  destruct (task_number t =? 0); [tauto|].
  destruct (delay t =? 0).
  - cbn [task_number delay interval run set_run set_delay].
    destruct (interval t =? 0);
      cbn [task_number delay interval run set_run set_delay];
      pose proof (s8_range (run t + 1)); pose proof (s16_range (interval t));
      lia.
  - cbn [task_number delay interval run set_run set_delay].
    pose proof (s16_range (delay t - 1)). lia.
Qed.

(** A one-shot entry whose delay has run out is made runnable again by
    every tick: its delay stays at zero. *)
Lemma update_task_one_shot t :
  task_number t <> 0 -> delay t = 0 -> interval t = 0 ->
  update_task t = set_run (s8 (run t + 1)) t /\
  delay (update_task t) = 0.
Proof.
  intros H1 H2 H3. unfold update_task.
  destruct (Z.eqb_spec (task_number t) 0); [contradiction|].
  rewrite H2. cbn. rewrite H3. cbn. split; [reflexivity|exact H2].
Qed.

End Scheduler.

(** ** The dispatcher *)

Section Dispatcher.

Lemma task_1_task_list s : task_list (task_1 s) = task_list s.
Proof. reflexivity. Qed.

Lemma task_1_calls s : calls (task_1 s) = calls s ++ [Call_task_1].
Proof. reflexivity. Qed.

Lemma drain_task_typed t :
  task_typed t = true -> task_typed (drain_task t) = true.
Proof.
  rewrite !task_typed_spec. intros (H1 & H2 & H3 & H4).
  unfold drain_task, runnable.
  destruct (task_number t =? 0); cbn [negb andb]; [tauto|].
  destruct (Z.gtb_spec (run t) 0); [|tauto].
  cbn [task_number delay interval run set_run]. lia.
Qed.

Lemma store_task_task_list i f s :
  task_list (store_task i f s) = alter f i (task_list s).
Proof. reflexivity. Qed.

Lemma store_task_calls i f s : calls (store_task i f s) = calls s.
Proof. reflexivity. Qed.

(** One round of the dispatcher's loop on an entry of the table. *)
Lemma task_manager_body_entry i s t :
  task_list s !! i = Some t ->
  task_typed t = true ->
  task_list (task_manager_body i s) = <[i := drain_task t]> (task_list s) /\
  calls (task_manager_body i s) = calls s ++ dispatched t.
Proof.
  intros Ht Hty. apply task_typed_spec in Hty as (_ & _ & _ & Hrun).
  unfold task_manager_body, drain_task, dispatched, runnable, body_of.
  rewrite (list_lookup_total_correct _ _ _ Ht).
  destruct (task_number t =? 0); cbn [negb andb].
  { rewrite list_insert_id, app_nil_r by exact Ht. split; reflexivity. }
  destruct (Z.gtb_spec (run t) 0) as [Hpos|Hnp].
  2: { rewrite list_insert_id, app_nil_r by exact Ht. split; reflexivity. }
  assert (alter (fun t => set_run (s8 (run t - 1)) t) i (task_list s) =
          <[i := set_run (run t - 1) t]> (task_list s)) as Hstore.
  { rewrite (alter_lookup _ _ _ _ Ht), s8_small by lia. reflexivity. }
  rewrite store_task_task_list, store_task_calls.
  destruct (task_number t =? ADC_TASK).
  { rewrite task_1_task_list, task_1_calls. split; [exact Hstore|reflexivity]. }
  destruct (task_number t =? FREQ_TASK).
  { rewrite task_2_task_list, task_2_calls. split; [exact Hstore|reflexivity]. }
  rewrite app_nil_r. split; [exact Hstore|reflexivity].
Qed.

Lemma set_task_list_twice A B s :
  set_task_list A (set_task_list B s) = set_task_list A s.
Proof. reflexivity. Qed.

Lemma set_task_list_same s : set_task_list (task_list s) s = s.
Proof. destruct s. reflexivity. Qed.

Lemma run_body_set_task_list id L s :
  run_body id (set_task_list L s) = set_task_list L (run_body id s).
Proof.
  unfold run_body. destruct (id =? ADC_TASK); [reflexivity|].
  destruct (id =? FREQ_TASK); [apply task_2_set_task_list|reflexivity].
Qed.

Lemma run_body_task_list id s : task_list (run_body id s) = task_list s.
Proof.
  unfold run_body. destruct (id =? ADC_TASK); [reflexivity|].
  destruct (id =? FREQ_TASK); [apply task_2_task_list|reflexivity].
Qed.

Lemma run_bodies_snoc l t s :
  run_bodies (l ++ [t]) s =
  if runnable t then run_body (task_number t) (run_bodies l s)
  else run_bodies l s.
Proof. unfold run_bodies. rewrite foldl_snoc. reflexivity. Qed.

(** One round of the dispatcher's loop, on the whole state: the body of
    the entry is run if the entry is occupied and pending, then the entry
    is written back with one pending run less. *)
Lemma task_manager_body_state i s t :
  task_list s !! i = Some t ->
  task_typed t = true ->
  task_manager_body i s =
  set_task_list (<[i := drain_task t]> (task_list s))
    (if runnable t then run_body (task_number t) s else s).
Proof.
  intros Ht Hty. apply task_typed_spec in Hty as (_ & _ & _ & Hrun).
  unfold task_manager_body, drain_task, runnable.
  rewrite (list_lookup_total_correct _ _ _ Ht).
  destruct (task_number t =? 0); cbn [negb andb].
  { rewrite list_insert_id by exact Ht. symmetry. apply set_task_list_same. }
  destruct (Z.gtb_spec (run t) 0) as [Hpos|Hnp].
  2: { rewrite list_insert_id by exact Ht. symmetry.
       apply set_task_list_same. }
  fold (run_body (task_number t) s). unfold store_task.
  rewrite run_body_task_list, (alter_lookup _ _ _ _ Ht), s8_small by lia.
  reflexivity.
Qed.

(** The dispatcher's loop after [n] rounds, on the whole state. *)
Lemma task_manager_rounds (n : nat) s :
  Forall (fun t => task_typed t = true) (task_list s) ->
  (n <= length (task_list s))%nat ->
  for_loop n task_manager_body s =
  set_task_list
    ((drain_task <$> take n (task_list s)) ++ drop n (task_list s))
    (run_bodies (take n (task_list s)) s).
Proof.
  intros Hall. induction n as [|n IH]; intros Hn.
  - cbn. rewrite drop_0. symmetry. apply set_task_list_same.
  - rewrite for_loop_S, IH by lia.
    destruct (lookup_lt_is_Some_2 (task_list s) n) as [t Ht]; [lia|].
    assert (task_typed t = true) as Hty
      by (eapply Forall_lookup in Hall; eassumption).
    assert (length (drain_task <$> take n (task_list s)) = n) as Hlen
      by (rewrite length_fmap, length_take_le; lia).
    rewrite (task_manager_body_state n _ t); [|  |exact Hty].
    + cbn [task_list set_task_list].
      rewrite (drop_S _ _ _ Ht), (take_S_r _ _ _ Ht), fmap_app.
      rewrite <- Hlen at 1. rewrite insert_middle, <- app_assoc.
      rewrite run_bodies_snoc.
      destruct (runnable t).
      * rewrite run_body_set_task_list, set_task_list_twice. reflexivity.
      * rewrite set_task_list_twice. reflexivity.
    + cbn [task_list set_task_list].
      rewrite lookup_app_r by lia. rewrite Hlen, Nat.sub_diag.
      rewrite lookup_drop, Nat.add_0_r. exact Ht.
Qed.

(** A dispatch pass, on the whole state: the bodies of the occupied and
    pending entries are run in table order, and the table is drained. *)
Lemma task_manager_state s :
  table_typed (task_list s) = true ->
  task_manager s =
  set_task_list (drain_task <$> task_list s) (run_bodies (task_list s) s).
Proof.
  intros Hty. apply table_typed_spec in Hty as [Hlen Hall].
  unfold task_manager. rewrite task_manager_rounds by (exact Hall || lia).
  rewrite take_ge, drop_ge, app_nil_r by lia. reflexivity.
Qed.

(** A dispatch pass acts on the table entry by entry. *)
Lemma task_manager_table s :
  table_typed (task_list s) = true ->
  task_list (task_manager s) = drain_task <$> task_list s.
Proof.
  intros Hty. apply table_typed_spec in Hty as [Hlen Hall].
  destruct (for_loop_table_all (fun t => task_typed t = true) drain_task
              dispatched task_manager_body s) as [Ht _];
    [|exact Hall|exact Hlen|exact Ht].
  intros i s' t. apply task_manager_body_entry.
Qed.

End Dispatcher.

(** C6: on a dispatch pass over a well-typed table, every entry with a
    non-zero task identifier and a positive pending-run count has that
    count decremented by exactly one, every other entry (in particular
    every entry with task identifier 0) is left as it is, and the calls
    made are, in table order, exactly one call of the body associated with
    the identifier of each such entry ([task_1] for [ADC_TASK], [task_2] for
    [FREQ_TASK]) and no call for any other entry.  The whole state after
    the pass is the one obtained by running those bodies, one after the
    other in table order, on the state before the pass, and writing the
    drained table: what each body does to the registers, the globals and
    the serial line is done once per such entry, and nothing else is. *)
Theorem task_manager_dispatch (s : state) :
  table_typed (task_list s) = true ->
  task_manager s =
    set_task_list (drain_task <$> task_list s)
      (foldl
         (fun x t =>
            if runnable t then
              if task_number t =? ADC_TASK then task_1 x
              else if task_number t =? FREQ_TASK then task_2 x
              else x
            else x)
         s (task_list s)) /\
  task_list (task_manager s) = drain_task <$> task_list s /\
  calls (task_manager s) = calls s ++ concat (dispatched <$> task_list s) /\
  (forall t, task_number t = 0 -> drain_task t = t /\ dispatched t = []) /\
  (forall t, runnable t = true ->
     run (drain_task t) = run t - 1 /\
     (task_number t = ADC_TASK -> dispatched t = [Call_task_1]) /\
     (task_number t = FREQ_TASK -> dispatched t = [Call_task_2])).
Proof.
  intros Hty. split; [exact (task_manager_state s Hty)|].
  apply table_typed_spec in Hty as [Hlen Hall].
  destruct (for_loop_table_all (fun t => task_typed t = true) drain_task
              dispatched task_manager_body s) as [Ht Hc].
  - intros i s' t. apply task_manager_body_entry.
  - exact Hall.
  - exact Hlen.
  - split; [exact Ht|]. split; [exact Hc|]. split.
    + intros t H0. unfold drain_task, dispatched, runnable. rewrite H0.
      split; reflexivity.
    + intros t Hr. unfold drain_task, dispatched. rewrite Hr.
      split; [reflexivity|]. unfold body_of.
      split; intros ->; reflexivity.
Qed.

Lemma task_manager_dispatch_witness :
  task_manager (update boot) =
    set_task_list (drain_task <$> task_list (update boot))
      (foldl
         (fun x t =>
            if runnable t then
              if task_number t =? ADC_TASK then task_1 x
              else if task_number t =? FREQ_TASK then task_2 x
              else x
            else x)
         (update boot) (task_list (update boot))) /\
  task_list (task_manager (update boot)) =
    drain_task <$> task_list (update boot) /\
  calls (task_manager (update boot)) =
    calls (update boot) ++ concat (dispatched <$> task_list (update boot)) /\
  (forall t, task_number t = 0 -> drain_task t = t /\ dispatched t = []) /\
  (forall t, runnable t = true ->
     run (drain_task t) = run t - 1 /\
     (task_number t = ADC_TASK -> dispatched t = [Call_task_1]) /\
     (task_number t = FREQ_TASK -> dispatched t = [Call_task_2])).
Proof. apply (task_manager_dispatch (update boot)). reflexivity. Defined.

(** ** Sleep *)

Section Sleep.

(** [go_sleep] does halt the CPU: the SE bit is set when the SLEEP
    instruction runs; after the wake interrupt the CPU runs again. *)
Lemma go_sleep_enter_sleeping s : sleeping (go_sleep_enter s) = true.
Proof.
  unfold go_sleep_enter, sleep_cpu.
  assert (Z.testbit (SMCR (sei (sleep_enable (cli (set_sleep_mode
            SLEEP_MODE_STANDBY s))))) SE = true) as ->.
  { cbn [SMCR sei sleep_enable cli set_sleep_mode set_SREG_I set_SMCR].
    rewrite Z.lor_spec. apply orb_true_r. }
  reflexivity.
Qed.

Lemma go_sleep_sleeping s : sleeping (go_sleep s) = false.
Proof. reflexivity. Qed.

Lemma sleep_cpu_task_list s : task_list (sleep_cpu s) = task_list s.
Proof. unfold sleep_cpu. destruct (Z.testbit (SMCR s) SE); reflexivity. Qed.

Lemma go_sleep_frequency_control s :
  frequency_control (go_sleep s) = frequency_control s.
Proof.
  unfold go_sleep, go_sleep_enter, sleep_cpu.
  destruct (Z.testbit _ SE); reflexivity.
Qed.

Lemma go_sleep_conversion_result s :
  conversion_result (go_sleep s) = conversion_result s.
Proof.
  unfold go_sleep, go_sleep_enter, sleep_cpu.
  destruct (Z.testbit _ SE); reflexivity.
Qed.

Lemma go_sleep_task_list_frame s : task_list (go_sleep s) = task_list s.
Proof.
  unfold go_sleep, wake, PCINT2_vect, go_sleep_enter.
  cbn [task_list sleep_disable set_SMCR set_sleeping].
  rewrite sleep_cpu_task_list. reflexivity.
Qed.

End Sleep.

(** C8: a call of [go_sleep] with the wake interrupt in it leaves the task
    table as it was: at the SLEEP instruction, after the interrupt handler,
    and on return, every entry has its four fields unchanged. *)
Theorem go_sleep_task_list (s : state) :
  task_list (go_sleep_enter s) = task_list s /\
  task_list (wake (go_sleep_enter s)) = task_list s /\
  task_list (go_sleep s) = task_list s.
Proof.
  assert (task_list (go_sleep_enter s) = task_list s) as H.
  { unfold go_sleep_enter. rewrite sleep_cpu_task_list. reflexivity. }
  repeat split; [exact H| |]; unfold go_sleep, wake, PCINT2_vect; exact H.
Qed.

(** ** Initialisation *)

Section Init.

Lemma add_task_task_list number id d iv s :
  task_list (add_task number id d iv s) =
  alter (fun t => mk_task (u8 id) (s16 d) (u16 (s16 iv)) (run t))
    (Z.to_nat (u8 number)) (task_list s).
Proof.
  unfold add_task. rewrite !store_task_task_list, !list_alter_alter_eq.
  reflexivity.
Qed.

Lemma init_tasks_body_task_list i s :
  task_list (init_tasks_body i s) =
  alter (fun t => mk_task FREQ_TASK 50 100 (run t)) 1%nat
    (alter (fun t => mk_task ADC_TASK 0 100 (run t)) 0%nat
       (alter (set_task_number 0) i (task_list s))).
Proof.
  unfold init_tasks_body. rewrite !add_task_task_list, store_task_task_list.
  reflexivity.
Qed.

End Init.

(** C10: [init_tasks] leaves slot 0 with task identifier [ADC_TASK],
    delay 0 and interval 100, and slot 1 with task identifier [FREQ_TASK],
    delay 50 and interval 100; the pending-run counts are not written. *)
Theorem init_tasks_table (s : state) (t0 t1 : task) :
  task_list s = [t0; t1] ->
  task_list (init_tasks s) =
    [mk_task ADC_TASK 0 100 (run t0); mk_task FREQ_TASK 50 100 (run t1)].
Proof.
  intros H. unfold init_tasks, TASK_MAX. rewrite !for_loop_S.
  change (for_loop 0 init_tasks_body s) with s.
  rewrite !init_tasks_body_task_list, H. reflexivity.
Qed.

Lemma init_tasks_table_witness :
  task_list (init_tasks initial_state) =
    [mk_task ADC_TASK 0 100 0; mk_task FREQ_TASK 50 100 0].
Proof.
  apply (init_tasks_table initial_state empty_task empty_task). reflexivity.
Defined.

(** ** Timing of the schedule *)

Section Timing.

Lemma table_typed_fmap f l :
  (forall t, task_typed t = true -> task_typed (f t) = true) ->
  table_typed l = true -> table_typed (f <$> l) = true.
Proof.
  intros Hf. rewrite !table_typed_spec. intros [Hlen Hall]. split.
  - rewrite length_fmap. exact Hlen.
  - apply Forall_fmap. eapply Forall_impl; [exact Hall|]. exact Hf.
Qed.

Lemma slot_step_typed t :
  task_typed t = true -> task_typed (slot_step t) = true.
Proof. intros H. apply drain_task_typed, update_task_typed, H. Qed.

(** A tick and a dispatch pass act on the table entry by entry. *)
Lemma tick_and_dispatch_table s :
  table_typed (task_list s) = true ->
  task_list (tick_and_dispatch s) = slot_step <$> task_list s.
Proof.
  intros Hty. unfold tick_and_dispatch.
  pose proof (proj1 (table_typed_spec _) Hty) as [Hlen _].
  destruct (update_table s Hlen) as [Hup _].
  rewrite task_manager_table, Hup, <- list_fmap_compose; [reflexivity|].
  rewrite Hup. apply table_typed_fmap; [apply update_task_typed|exact Hty].
Qed.

Lemma iter_tick_and_dispatch_table s n :
  table_typed (task_list s) = true ->
  task_list (Nat.iter n tick_and_dispatch s) =
    Nat.iter n slot_step <$> task_list s /\
  table_typed (task_list (Nat.iter n tick_and_dispatch s)) = true.
Proof.
  intros Hty. induction n as [|n [IHt IHty]].
  - cbn. rewrite list_fmap_id. split; [reflexivity|exact Hty].
  - rewrite !Nat.iter_succ, tick_and_dispatch_table by exact IHty.
    split.
    + rewrite IHt, <- list_fmap_compose. reflexivity.
    + apply table_typed_fmap; [apply slot_step_typed|exact IHty].
Qed.

(** [fires], read off a single entry. *)
Lemma fires_entry s slot t n :
  table_typed (task_list s) = true ->
  task_list s !! slot = Some t ->
  fires s slot n =
  (run (Nat.iter (n - 1) slot_step t) <?
   run (update_task (Nat.iter (n - 1) slot_step t))).
Proof.
  intros Hty Ht. unfold fires, before_tick.
  destruct (iter_tick_and_dispatch_table s (n - 1) Hty) as [Hit Hity].
  pose proof (proj1 (table_typed_spec _) Hity) as [Hlen _].
  destruct (update_table _ Hlen) as [Hup _].
  rewrite Hup, Hit.
  rewrite (list_lookup_total_correct _ slot (Nat.iter (n - 1) slot_step t))
    by (rewrite list_lookup_fmap, Ht; reflexivity).
  rewrite (list_lookup_total_correct _ slot
             (update_task (Nat.iter (n - 1) slot_step t)))
    by (rewrite !list_lookup_fmap, Ht; reflexivity).
  reflexivity.
Qed.

Lemma delay_after_range d k n :
  0 <= d < 32768 -> 0 < k < 32768 -> 0 <= n ->
  0 <= delay_after d k n < 32768.
Proof.
  intros Hd Hk Hn. unfold delay_after. destruct (Z.leb_spec n d); [lia|].
  pose proof (Z.mod_pos_bound (n - d - 1) (k + 1)). lia.
Qed.

Lemma delay_after_succ d k n :
  0 <= d < 32768 -> 0 < k < 32768 -> 0 <= n ->
  delay_after d k (n + 1) =
  if delay_after d k n =? 0 then k else delay_after d k n - 1.
Proof.
  intros Hd Hk Hn. unfold delay_after.
  destruct (Z.leb_spec n d); destruct (Z.leb_spec (n + 1) d); try lia.
  - destruct (Z.eqb_spec (d - n) 0); lia.
  - assert (n = d) by lia. subst n.
    replace (d + 1 - d - 1) with 0 by lia. rewrite Z.mod_0_l by lia.
    destruct (Z.eqb_spec (d - d) 0); lia.
  - replace (n + 1 - d - 1) with ((n - d - 1) + 1) by lia.
    set (m := n - d - 1).
    pose proof (Z.div_mod m (k + 1) ltac:(lia)) as Hdm.
    pose proof (Z.mod_pos_bound m (k + 1) ltac:(lia)) as Hr.
    set (r := m mod (k + 1)) in *. set (q := m / (k + 1)) in *.
    replace (m + 1) with ((r + 1) + q * (k + 1)) by lia.
    rewrite Z.mod_add by lia.
    destruct (Z.eqb_spec (k - r) 0).
    + replace (r + 1) with (k + 1) by lia. rewrite Z.mod_same by lia. lia.
    + rewrite Z.mod_small by lia. lia.
Qed.

(** When tick [n] makes the entry runnable. *)
Lemma delay_after_zero d k (n : nat) :
  0 <= d < 32768 -> 0 < k < 32768 -> (1 <= n)%nat ->
  delay_after d k (Z.of_nat (n - 1)) = 0 <->
  exists j : nat, Z.of_nat n = d + 1 + Z.of_nat j * (k + 1).
Proof.
  intros Hd Hk Hn. unfold delay_after.
  rewrite Nat2Z.inj_sub by lia. change (Z.of_nat 1) with 1.
  set (z := Z.of_nat n). assert (1 <= z) as Hz by lia. clearbody z.
  destruct (Z.leb_spec (z - 1) d) as [Hle|Hgt].
  - split.
    + intros H. exists 0%nat. lia.
    + intros [j Hj]. nia.
  - split.
    + intros H. exists (Z.to_nat ((z - 1 - d - 1) / (k + 1) + 1)).
      rewrite Z2Nat.id by (Z.div_mod_to_equations; nia).
      Z.div_mod_to_equations. nia.
    + intros [j Hj]. destruct j as [|j]; [lia|].
      replace (z - 1 - d - 1) with (k + Z.of_nat j * (k + 1)) by lia.
      rewrite Z.mod_add, Z.mod_small by lia. lia.
Qed.

Section Periodic.

Variables (id d k : Z).
Hypothesis Hid : id <> 0.
Hypothesis Hd : 0 <= d < 32768.
Hypothesis Hk : 0 < k < 32768.

Lemma slot_step_entry x :
  0 <= x < 32768 ->
  slot_step (periodic_entry id k x) =
  periodic_entry id k (if x =? 0 then k else x - 1).
Proof.
  intros Hx. apply Z.eqb_neq in Hid as Hidb.
  assert ((k =? 0) = false) as Hkb by (apply Z.eqb_neq; lia).
  unfold slot_step, update_task, drain_task, runnable, periodic_entry.
  cbn [task_number delay interval run set_run set_delay].
  rewrite Hidb. destruct (Z.eqb_spec x 0).
  - cbn [task_number delay interval run set_run set_delay].
    rewrite Hkb.
    cbn [task_number delay interval run set_run set_delay].
    rewrite Hidb. change (s8 (0 + 1)) with 1.
    cbn [negb andb Z.gtb Z.compare]. rewrite s16_small by lia.
    reflexivity.
  - cbn [task_number delay interval run set_run set_delay].
    rewrite Hidb. cbn [negb andb Z.gtb Z.compare].
    rewrite s16_small by lia. reflexivity.
Qed.

(** The entry after [n] ticks. *)
Lemma iter_slot_step_entry (n : nat) :
  Nat.iter n slot_step (periodic_entry id k d) =
  periodic_entry id k (delay_after d k (Z.of_nat n)).
Proof.
  induction n as [|n IH].
  - change (Nat.iter 0 slot_step (periodic_entry id k d))
      with (periodic_entry id k d).
    unfold delay_after. change (Z.of_nat 0) with 0.
    destruct (Z.leb_spec 0 d); [|lia]. rewrite Z.sub_0_r. reflexivity.
  - rewrite Nat.iter_succ, IH.
    rewrite slot_step_entry by (apply delay_after_range; lia).
    rewrite Nat2Z.inj_succ, <- Z.add_1_r, delay_after_succ by lia.
    reflexivity.
Qed.

Lemma update_entry_fires x :
  (run (periodic_entry id k x) <?
   run (update_task (periodic_entry id k x))) = (x =? 0).
Proof.
  apply Z.eqb_neq in Hid as Hidb.
  unfold update_task, periodic_entry.
  cbn [task_number delay interval run set_run set_delay].
  rewrite Hidb. destruct (Z.eqb_spec x 0).
  - cbn [task_number delay interval run set_run set_delay].
    destruct (k =? 0); reflexivity.
  - reflexivity.
Qed.

End Periodic.

(** The schedule of a periodic task, the dispatcher keeping up: an entry
    registered with delay [d] and interval [k] is made runnable at tick
    [d + 1] and from then on every [k + 1] ticks, and at no other tick. *)
Lemma update_period s slot t (n : nat) :
  table_typed (task_list s) = true ->
  task_list s !! slot = Some t ->
  task_number t <> 0 -> run t = 0 ->
  0 <= delay t -> 0 < interval t < 32768 ->
  (1 <= n)%nat ->
  fires s slot n = true <->
  exists j : nat, Z.of_nat n = delay t + 1 + Z.of_nat j * (interval t + 1).
Proof.
  intros Hty Ht Hid Hrun Hd Hk Hn.
  assert (task_typed t = true) as Htt.
  { apply table_typed_spec in Hty as [_ Hall].
    eapply Forall_lookup in Hall; eassumption. }
  apply task_typed_spec in Htt as (_ & Hdr & _ & _).
  rewrite (fires_entry s slot t n Hty Ht).
  destruct t as [id d k r]. cbn in *. subst r.
  rewrite (iter_slot_step_entry id d k Hid ltac:(lia) Hk).
  rewrite (update_entry_fires id k Hid), Z.eqb_eq.
  apply delay_after_zero; [lia|exact Hk|exact Hn].
Qed.

(** The schedule of a one-shot task (interval zero), the dispatcher keeping
    up: once its delay has run out it is made runnable by every tick. *)
Lemma one_shot_step id x :
  id <> 0 -> 0 <= x < 32768 ->
  slot_step (mk_task id x 0 0) = mk_task id (Z.max 0 (x - 1)) 0 0.
Proof.
  intros Hid Hx. apply Z.eqb_neq in Hid as Hidb.
  unfold slot_step, update_task, drain_task, runnable.
  cbn [task_number delay interval run set_run set_delay].
  rewrite Hidb. destruct (Z.eqb_spec x 0) as [->|Hne].
  - cbn [task_number delay interval run set_run set_delay Z.eqb].
    rewrite Hidb. reflexivity.
  - cbn [task_number delay interval run set_run set_delay].
    rewrite Hidb. cbn [negb andb Z.gtb Z.compare].
    rewrite s16_small, Z.max_r by lia. reflexivity.
Qed.

Lemma iter_one_shot_step id d (n : nat) :
  id <> 0 -> 0 <= d < 32768 ->
  Nat.iter n slot_step (mk_task id d 0 0) =
  mk_task id (Z.max 0 (d - Z.of_nat n)) 0 0.
Proof.
  intros Hid Hd. induction n as [|n IH].
  - cbn. f_equal. lia.
  - rewrite Nat.iter_succ, IH, one_shot_step by lia. f_equal. lia.
Qed.

Lemma update_one_shot s slot t (n : nat) :
  table_typed (task_list s) = true ->
  task_list s !! slot = Some t ->
  task_number t <> 0 -> run t = 0 -> interval t = 0 -> 0 <= delay t ->
  (1 <= n)%nat ->
  fires s slot n = true <-> delay t + 1 <= Z.of_nat n.
Proof.
  intros Hty Ht Hid Hrun Hk Hd Hn.
  assert (task_typed t = true) as Htt.
  { apply table_typed_spec in Hty as [_ Hall].
    eapply Forall_lookup in Hall; eassumption. }
  apply task_typed_spec in Htt as (_ & Hdr & _ & _).
  rewrite (fires_entry s slot t n Hty Ht).
  destruct t as [id d k r]. cbn in Hid, Hrun, Hk, Hd, Hdr. subst r k.
  rewrite iter_one_shot_step by lia.
  apply Z.eqb_neq in Hid as Hidb. unfold update_task.
  cbn [task_number delay interval run set_run set_delay]. rewrite Hidb.
  destruct (Z.eqb_spec (Z.max 0 (d - Z.of_nat (n - 1))) 0) as [Hz|Hnz].
  - cbn [task_number delay interval run set_run set_delay Z.eqb].
    split; [lia|reflexivity].
  - cbn [task_number delay interval run set_run set_delay].
    split; [discriminate|lia].
Qed.

End Timing.

(** C2 (the code departs from it): the ticks, among the first 310, at which
    the two tasks of the program are made runnable when the dispatcher
    keeps up.  The ADC task (delay 0, interval 100) is made runnable at
    ticks 1, 102, 203 and 304, and the reporting task (delay 50, interval
    100) at ticks 51, 152 and 253: the first run comes after d + 1 ticks,
    the following ones every 101 ticks, not every 100. *)
Theorem update_period_boot :
  filter (fun n => fires boot 0 n = true) (seq 1 310) = [1; 102; 203; 304]%nat /\
  filter (fun n => fires boot 1 n = true) (seq 1 310) = [51; 152; 253]%nat.
Proof. split; vm_compute; reflexivity. Qed.

(** C3 (the code departs from it): a task registered in slot 0 with delay 0
    and interval 0 is made runnable by the first tick, run once by the
    dispatcher, and made runnable again by each of the ticks that follow. *)
Theorem update_one_shot_repeats :
  task_list (add_task 0 ADC_TASK 0 0 initial_state) =
    [mk_task ADC_TASK 0 0 0; empty_task] /\
  filter (fun n => fires (add_task 0 ADC_TASK 0 0 initial_state) 0 n = true)
    (seq 1 8) = [1; 2; 3; 4; 5; 6; 7; 8]%nat /\
  calls (Nat.iter 8 tick_and_dispatch (add_task 0 ADC_TASK 0 0 initial_state)) =
    replicate 8 Call_task_1.
Proof. repeat split; vm_compute; reflexivity. Qed.

(** ** Invariants of a run *)

Section Invariants.

Lemma store_task_frequency_control i f s :
  frequency_control (store_task i f s) = frequency_control s.
Proof. reflexivity. Qed.

Lemma store_task_conversion_result i f s :
  conversion_result (store_task i f s) = conversion_result s.
Proof. reflexivity. Qed.

Lemma task_1_frequency_control s :
  frequency_control (task_1 s) = frequency_control s.
Proof. reflexivity. Qed.

Lemma task_1_conversion_result s :
  conversion_result (task_1 s) = conversion_result s.
Proof. reflexivity. Qed.

Lemma update_body_frequency_control i s :
  frequency_control (update_body i s) = frequency_control s.
Proof.
  unfold update_body.
  destruct (negb _); [|reflexivity].
  destruct (delay _ =? 0); [|apply store_task_frequency_control].
  destruct (negb _); reflexivity.
Qed.

Lemma update_body_conversion_result i s :
  conversion_result (update_body i s) = conversion_result s.
Proof.
  unfold update_body.
  destruct (negb _); [|reflexivity].
  destruct (delay _ =? 0); [|apply store_task_conversion_result].
  destruct (negb _); reflexivity.
Qed.

Lemma update_frequency_control s :
  frequency_control (update s) = frequency_control s.
Proof.
  apply (for_loop_preserves
           (fun x => frequency_control x = frequency_control s));
    [|reflexivity].
  intros i x Hx. rewrite update_body_frequency_control. exact Hx.
Qed.

Lemma update_conversion_result s :
  conversion_result (update s) = conversion_result s.
Proof.
  apply (for_loop_preserves
           (fun x => conversion_result x = conversion_result s));
    [|reflexivity].
  intros i x Hx. rewrite update_body_conversion_result. exact Hx.
Qed.

Lemma task_manager_body_frequency_control i s :
  frequency_control (task_manager_body i s) = frequency_control s.
Proof.
  unfold task_manager_body.
  destruct (negb _); [|reflexivity].
  destruct (run _ >? 0); [|reflexivity].
  rewrite store_task_frequency_control.
  destruct (_ =? ADC_TASK); [apply task_1_frequency_control|].
  destruct (_ =? FREQ_TASK); [apply task_2_frequency_control|reflexivity].
Qed.

Lemma task_manager_frequency_control s :
  frequency_control (task_manager s) = frequency_control s.
Proof.
  apply (for_loop_preserves
           (fun x => frequency_control x = frequency_control s));
    [|reflexivity].
  intros i x Hx. rewrite task_manager_body_frequency_control. exact Hx.
Qed.

Lemma task_manager_body_conversion_result i s :
  0 <= conversion_result s < 65536 ->
  0 <= conversion_result (task_manager_body i s) < 65536.
Proof.
  intros Hcr. unfold task_manager_body.
  destruct (negb _); [|exact Hcr].
  destruct (run _ >? 0); [|exact Hcr].
  rewrite store_task_conversion_result.
  destruct (_ =? ADC_TASK); [exact Hcr|].
  destruct (_ =? FREQ_TASK); [|exact Hcr].
  rewrite task_2_effect_ok by exact Hcr. cbn. lia.
Qed.

Lemma task_manager_conversion_result s :
  0 <= conversion_result s < 65536 ->
  0 <= conversion_result (task_manager s) < 65536.
Proof.
  intros Hcr.
  apply (for_loop_preserves (fun x => 0 <= conversion_result x < 65536));
    [|exact Hcr].
  intros i x. apply task_manager_body_conversion_result.
Qed.

Lemma main_loop_body_frequency_control pind s :
  frequency_control (main_loop_body pind s) = frequency_control s.
Proof.
  unfold main_loop_body. destruct (_ =? 0).
  - rewrite go_sleep_frequency_control. apply task_manager_frequency_control.
  - apply task_manager_frequency_control.
Qed.

Lemma TIMER2_OVF_vect_frequency_control s :
  frequency_control (TIMER2_OVF_vect s) = frequency_control s.
Proof.
  unfold TIMER2_OVF_vect. destruct (_ >=? OVF_MAX); [|reflexivity].
  cbn [frequency_control set_overflows]. rewrite update_frequency_control.
  reflexivity.
Qed.

Lemma TIMER2_OVF_vect_conversion_result s :
  conversion_result (TIMER2_OVF_vect s) = conversion_result s.
Proof.
  unfold TIMER2_OVF_vect. destruct (_ >=? OVF_MAX); [|reflexivity].
  cbn [conversion_result set_overflows]. rewrite update_conversion_result.
  reflexivity.
Qed.

Lemma TIMER2_OVF_vect_task_list s :
  task_list (TIMER2_OVF_vect s) = task_list s \/
  task_list (TIMER2_OVF_vect s) =
    task_list (update (set_overflows (u16 (overflows s + 1)) s)).
Proof.
  unfold TIMER2_OVF_vect. destruct (_ >=? OVF_MAX); [right|left]; reflexivity.
Qed.

Lemma ADC_vect_task_list r s : task_list (ADC_vect r s) = task_list s.
Proof.
  unfold ADC_vect, ADC_vect_w. cbn.
  destruct (r <? 50); [reflexivity|].
  destruct (r >? 1000); reflexivity.
Qed.

Lemma step_frequency_control s s' :
  step s s' ->
  124 <= frequency_control s <= 2499 ->
  124 <= frequency_control s' <= 2499.
Proof.
  intros Hstep Hs. destruct Hstep as [pind s|s|r s Hr|s].
  - rewrite main_loop_body_frequency_control. exact Hs.
  - rewrite TIMER2_OVF_vect_frequency_control. exact Hs.
  - pose proof (ADC_vect_frequency_control_bounds r s). lia.
  - exact Hs.
Qed.

(** In every state of a run the table and [conversion_result] hold
    values of their C types: the hypotheses of the statements about the
    dispatcher and the reporting task are met throughout. *)
Lemma reachable_typed s :
  reachable s ->
  table_typed (task_list s) = true /\ 0 <= conversion_result s < 65536.
Proof.
  induction 1 as [| | |s s' _ [IHt IHc] Hstep].
  - split; [reflexivity|cbn; lia].
  - split; [reflexivity|cbn; lia].
  - split; [reflexivity|cbn; lia].
  - destruct Hstep as [pind s|s|r s Hr|s].
    + assert (table_typed (task_list (task_manager s)) = true /\
              0 <= conversion_result (task_manager s) < 65536) as [Ht Hc].
      { split; [|apply task_manager_conversion_result, IHc].
        rewrite (task_manager_table s IHt).
        apply table_typed_fmap; [apply drain_task_typed|exact IHt]. }
      unfold main_loop_body. destruct (_ =? 0); [|split; assumption].
      rewrite go_sleep_task_list_frame.
      rewrite go_sleep_conversion_result. split; assumption.
    + rewrite TIMER2_OVF_vect_conversion_result. split; [|exact IHc].
      destruct (TIMER2_OVF_vect_task_list s) as [-> | ->]; [exact IHt|].
      pose proof (proj1 (table_typed_spec _) IHt) as [Hlen _].
      destruct (update_table (set_overflows (u16 (overflows s + 1)) s) Hlen)
        as [-> _].
      apply table_typed_fmap; [apply update_task_typed|exact IHt].
    + split; [rewrite ADC_vect_task_list; exact IHt|].
      unfold ADC_vect. rewrite ADC_vect_w_conversion_result.
      pose proof (clamp_range r). lia.
    + split; assumption.
Qed.

End Invariants.

(** C5: the Frequency Control Value lies in [124, 2499] in every state of
    a run: at the start of [main], after initialisation, and after every
    round of the main loop and every interrupt, the ADC completion
    interrupt delivering any raw value in [0, 1023]. *)
Theorem frequency_control_range (s : state) :
  reachable s -> 124 <= frequency_control s <= 2499.
Proof.
  induction 1 as [| | |s s' _ IH Hstep].
  - cbn. lia.
  - cbn. lia.
  - cbn. lia.
  - eapply step_frequency_control; eassumption.
Qed.

Lemma frequency_control_range_witness :
  124 <= frequency_control (ADC_vect 1023 boot) <= 2499.
Proof.
  apply (frequency_control_range (ADC_vect 1023 boot)).
  apply (reachable_step boot).
  - apply reachable_boot.
  - apply step_adc. lia.
Defined.

(** * Further properties of the program *)

(** ** Serial transmission *)

(** X1: [send_string_direct] transmits the characters that precede the
    first NUL of the array, in order, and nothing that follows it; no other
    part of the state changes.  An array that starts with NUL transmits
    nothing. *)
Theorem send_string_direct_stops_at_NUL (l rest : list Z) (s : state) :
  Forall (fun c => c <> NUL) l ->
  send_string_direct (l ++ NUL :: rest) s = transmit l s /\
  send_string_direct (NUL :: rest) s = s.
Proof.
  intros Hl. split.
  - rewrite send_string_direct_transmit, c_string_terminated by exact Hl.
    reflexivity.
  - reflexivity.
Qed.

Lemma send_string_direct_stops_at_NUL_witness :
  send_string_direct (chars "Hz" ++ NUL :: chars "lost") boot =
    transmit (chars "Hz") boot /\
  send_string_direct (NUL :: chars "lost") boot = boot.
Proof.
  apply (send_string_direct_stops_at_NUL (chars "Hz") (chars "lost") boot).
  repeat (constructor; [discriminate|]). constructor.
Defined.

(** ** The tick interrupt *)

Section Tick.

Lemma for_loop_commute (g : state -> state) n body s :
  (forall i x, body i (g x) = g (body i x)) ->
  for_loop n body (g s) = g (for_loop n body s).
Proof.
  intros H. induction n as [|n IH]; [reflexivity|].
  rewrite !for_loop_S, IH. apply H.
Qed.

Lemma update_set_overflows v s :
  update (set_overflows v s) = set_overflows v (update s).
Proof.
  apply for_loop_commute. intros i x. unfold update_body.
  cbn [task_list set_overflows].
  destruct (negb _); [|reflexivity].
  destruct (delay _ =? 0); [|reflexivity].
  cbn [task_list store_task set_task_list set_overflows].
  destruct (negb _); reflexivity.
Qed.

Lemma update_overflows s : overflows (update s) = overflows s.
Proof.
  apply (for_loop_preserves (fun x => overflows x = overflows s));
    [|reflexivity].
  intros i x Hx. rewrite <- Hx. unfold update_body.
  destruct (negb _); [|reflexivity].
  destruct (delay _ =? 0); [|reflexivity].
  destruct (negb _); reflexivity.
Qed.

Lemma set_overflows_same s : set_overflows (overflows s) s = s.
Proof. destruct s. reflexivity. Qed.

Lemma set_overflows_twice a b s :
  set_overflows a (set_overflows b s) = set_overflows a s.
Proof. reflexivity. Qed.

(** Below the threshold the handler only counts. *)
Lemma TIMER2_OVF_vect_counts (n : nat) s :
  0 <= overflows s ->
  overflows s + Z.of_nat n <= OVF_MAX ->
  Nat.iter n TIMER2_OVF_vect s = set_overflows (overflows s + Z.of_nat n) s.
Proof.
  unfold OVF_MAX. intros H0 Hn. induction n as [|n IH].
  - cbn. rewrite Z.add_0_r. symmetry. apply set_overflows_same.
  - rewrite Nat.iter_succ, IH by lia. unfold TIMER2_OVF_vect, OVF_MAX.
    cbn [overflows set_overflows].
    destruct (Z.geb_spec (overflows s + Z.of_nat n) 156); [lia|].
    rewrite u16_small, set_overflows_twice by lia. f_equal. lia.
Qed.

(** A full period: 157 interrupts from a counter at zero. *)
Lemma TIMER2_OVF_vect_period s :
  overflows s = 0 -> Nat.iter 157 TIMER2_OVF_vect s = update s.
Proof.
  intros H0. change 157%nat with (S 156). rewrite Nat.iter_succ.
  rewrite TIMER2_OVF_vect_counts by (rewrite H0; unfold OVF_MAX; lia).
  rewrite H0. unfold TIMER2_OVF_vect, OVF_MAX. cbn [overflows set_overflows].
  change (0 + Z.of_nat 156 >=? 156) with true. cbv iota.
  rewrite !set_overflows_twice, update_set_overflows, set_overflows_twice.
  transitivity (set_overflows (overflows (update s)) (update s)).
  - rewrite update_overflows, H0. reflexivity.
  - apply set_overflows_same.
Qed.

End Tick.

(** X2: the tick interrupt calls [update] once in every 157 timer
    overflows ([OVF_MAX] + 1, the comparison being made before the
    increment): from a counter at zero, fewer than 157 interrupts leave the
    task table untouched, and [157 * m] interrupts amount to exactly [m]
    calls of [update], the counter being back at zero. *)
Theorem tick_every_157_overflows (s : state) :
  overflows s = 0 ->
  (forall n : nat, (n < 157)%nat ->
     task_list (Nat.iter n TIMER2_OVF_vect s) = task_list s) /\
  (forall m : nat,
     Nat.iter (157 * m) TIMER2_OVF_vect s = Nat.iter m update s).
Proof.
  intros H0. split.
  - intros n Hn.
    rewrite TIMER2_OVF_vect_counts by (rewrite H0; unfold OVF_MAX; lia).
    reflexivity.
  - intros m. induction m as [|m IH].
    + reflexivity.
    + replace (157 * S m)%nat with (157 + 157 * m)%nat by lia.
      rewrite Nat.iter_add, IH, (Nat.iter_succ m).
      apply TIMER2_OVF_vect_period.
      clear IH. induction m as [|m IHm]; [exact H0|].
      rewrite Nat.iter_succ, update_overflows. exact IHm.
Qed.

Lemma tick_every_157_overflows_witness :
  (forall n : nat, (n < 157)%nat ->
     task_list (Nat.iter n TIMER2_OVF_vect boot) = task_list boot) /\
  (forall m : nat,
     Nat.iter (157 * m) TIMER2_OVF_vect boot = Nat.iter m update boot).
Proof. apply (tick_every_157_overflows boot). reflexivity. Defined.

(** ** Ticks without dispatch *)

Section Backlog.

Lemma iter_update_table s (n : nat) :
  length (task_list s) = TASK_MAX ->
  task_list (Nat.iter n update s) = Nat.iter n update_task <$> task_list s /\
  length (task_list (Nat.iter n update s)) = TASK_MAX.
Proof.
  intros Hlen. induction n as [|n [IHt IHl]].
  - cbn. rewrite list_fmap_id. split; [reflexivity|exact Hlen].
  - rewrite !Nat.iter_succ. destruct (update_table _ IHl) as [Hup _].
    rewrite Hup. split.
    + rewrite IHt, <- list_fmap_compose. reflexivity.
    + rewrite length_fmap. exact IHl.
Qed.

Lemma fired_by_succ d k n :
  0 <= d -> 0 < k -> 0 <= n ->
  fired_by d k (n + 1) =
  fired_by d k n + (if delay_after d k n =? 0 then 1 else 0).
Proof.
  intros Hd Hk Hn. unfold fired_by, delay_after.
  destruct (Z.leb_spec n d); destruct (Z.leb_spec (n + 1) d); try lia.
  - destruct (Z.eqb_spec (d - n) 0); lia.
  - assert (n = d) by lia. subst n.
    replace (d + 1 - d - 1) with 0 by lia. rewrite Z.div_0_l by lia.
    destruct (Z.eqb_spec (d - d) 0); lia.
  - replace (n + 1 - d - 1) with ((n - d - 1) + 1) by lia.
    set (m := n - d - 1).
    pose proof (Z.div_mod m (k + 1) ltac:(lia)) as Hdm.
    pose proof (Z.mod_pos_bound m (k + 1) ltac:(lia)) as Hr.
    set (r := m mod (k + 1)) in *. set (q := m / (k + 1)) in *.
    destruct (Z.eqb_spec (k - r) 0).
    + replace (m + 1) with ((q + 1) * (k + 1)) by lia.
      rewrite Z.div_mul by lia. lia.
    + replace (m + 1) with ((r + 1) + q * (k + 1)) by lia.
      rewrite Z.div_add, Z.div_small by lia. lia.
Qed.

Lemma fired_by_nonneg d k n : 0 <= d -> 0 < k -> 0 <= fired_by d k n.
Proof.
  intros Hd Hk. unfold fired_by. destruct (Z.leb_spec n d); [lia|].
  assert (0 <= (n - d - 1) / (k + 1)) by (apply Z.div_pos; lia). lia.
Qed.

(** One tick on an occupied periodic entry whose count cannot wrap. *)
Lemma update_task_entry id x k r :
  id <> 0 -> 0 <= x < 32768 -> 0 < k < 32768 ->
  -128 <= (if x =? 0 then r + 1 else r) < 128 ->
  update_task (mk_task id x k r) =
  mk_task id (if x =? 0 then k else x - 1) k (if x =? 0 then r + 1 else r).
Proof.
  intros Hid Hx Hk Hr. apply Z.eqb_neq in Hid as Hidb.
  assert ((k =? 0) = false) as Hkb by (apply Z.eqb_neq; lia).
  unfold update_task.
  cbn [task_number delay interval run set_run set_delay].
  rewrite Hidb. destruct (Z.eqb_spec x 0).
  - cbn [task_number delay interval run set_run set_delay].
    rewrite Hkb. cbn [task_number delay interval run set_run set_delay].
    rewrite s8_small, s16_small by lia. reflexivity.
  - cbn [task_number delay interval run set_run set_delay].
    rewrite s16_small by lia. reflexivity.
Qed.

Lemma iter_update_task_entry id d k (n : nat) :
  id <> 0 -> 0 <= d < 32768 -> 0 < k < 32768 ->
  fired_by d k (Z.of_nat n) <= 127 ->
  Nat.iter n update_task (mk_task id d k 0) =
  mk_task id (delay_after d k (Z.of_nat n)) k (fired_by d k (Z.of_nat n)).
Proof.
  intros Hid Hd Hk. induction n as [|n IH]; intros Hn.
  - cbn [Nat.iter nat_rect]. change (Z.of_nat 0) with 0.
    unfold delay_after, fired_by.
    destruct (Z.leb_spec 0 d); [|lia]. rewrite Z.sub_0_r. reflexivity.
  - rewrite Nat2Z.inj_succ, <- Z.add_1_r in *.
    pose proof (fired_by_succ d k (Z.of_nat n) ltac:(lia) ltac:(lia)
                  ltac:(lia)) as Hs.
    pose proof (fired_by_nonneg d k (Z.of_nat n) ltac:(lia) ltac:(lia)).
    rewrite Nat.iter_succ, IH
      by (destruct (delay_after d k (Z.of_nat n) =? 0); lia).
    rewrite update_task_entry;
      [|exact Hid|apply delay_after_range; lia|exact Hk
       |revert Hs; destruct (delay_after d k (Z.of_nat n) =? 0); lia].
    rewrite delay_after_succ by lia. revert Hs.
    destruct (delay_after d k (Z.of_nat n) =? 0); intros ->;
      rewrite ?Z.add_0_r; reflexivity.
Qed.

End Backlog.

(** X3: ticks without any dispatch pass.  After [n] calls of [update] an
    occupied periodic entry registered with delay [d] and interval [k] has
    been made runnable at every tick [d + 1 + j * (k + 1)] up to [n], and
    its pending-run count holds their number (as long as that number fits
    the [int8_t] field); identifier and interval are as registered. *)
Theorem update_backlog (s : state) (slot : nat) (t : task) (n : nat) :
  length (task_list s) = TASK_MAX ->
  task_list s !! slot = Some t ->
  task_number t <> 0 -> run t = 0 ->
  0 <= delay t < 32768 -> 0 < interval t < 32768 ->
  fired_by (delay t) (interval t) (Z.of_nat n) <= 127 ->
  task_list (Nat.iter n update s) !! slot =
  Some (mk_task (task_number t)
          (delay_after (delay t) (interval t) (Z.of_nat n))
          (interval t)
          (fired_by (delay t) (interval t) (Z.of_nat n))).
Proof.
  intros Hlen Ht Hid Hrun Hd Hk Hn.
  destruct (iter_update_table s n Hlen) as [-> _].
  rewrite list_lookup_fmap, Ht.
  destruct t as [id d k r]. cbn in *. subst r.
  rewrite iter_update_task_entry by assumption. reflexivity.
Qed.

Lemma update_backlog_witness :
  task_list (Nat.iter 250 update boot) !! 0%nat = Some (mk_task 1 53 100 3).
Proof.
  apply (update_backlog boot 0 (mk_task ADC_TASK 0 100 0) 250).
  - reflexivity.
  - reflexivity.
  - discriminate.
  - reflexivity.
  - cbn. lia.
  - cbn. lia.
  - vm_compute. discriminate.
Defined.

Section Skipped.

Lemma run_bodies_cons a l x :
  run_bodies (a :: l) x =
  run_bodies l (if runnable a then run_body (task_number a) x else x).
Proof. reflexivity. Qed.

(** An entry that is not occupied and pending adds nothing to the bodies
    run in a pass. *)
Lemma run_bodies_delete l i t x :
  l !! i = Some t -> runnable t = false ->
  run_bodies l x = run_bodies (delete i l) x.
Proof.
  revert i x. induction l as [|a l IH]; intros i x Hl Hr; [discriminate|].
  destruct i as [|i]; cbn in Hl.
  - injection Hl as ->. rewrite run_bodies_cons, Hr. reflexivity.
  - change (delete (S i) (a :: l)) with (a :: delete i l).
    rewrite !run_bodies_cons. apply IH; assumption.
Qed.

Lemma run_bodies_idle l x :
  Forall (fun t => runnable t = false) l -> run_bodies l x = x.
Proof.
  intros Hall. revert x. induction Hall as [|a l Ha _ IH]; intros x.
  - reflexivity.
  - rewrite run_bodies_cons, Ha. apply IH.
Qed.

Lemma Forall_delete_inv (P : task -> Prop) l i t :
  l !! i = Some t -> P t -> Forall P (delete i l) -> Forall P l.
Proof.
  revert i. induction l as [|a l IH]; intros i Hl Ht Hall; [constructor|].
  destruct i as [|i]; cbn in Hl.
  - injection Hl as ->. constructor; assumption.
  - change (delete (S i) (a :: l)) with (a :: delete i l) in Hall.
    inversion Hall; subst. constructor; [assumption|]. eapply IH; eassumption.
Qed.

Lemma drain_task_idle_table l :
  Forall (fun t => runnable t = false) l -> drain_task <$> l = l.
Proof.
  intros Hall. induction Hall as [|a l Ha _ IH]; [reflexivity|].
  cbn. unfold drain_task at 1. rewrite Ha. f_equal. exact IH.
Qed.

End Skipped.

(** X4: the pending-run count is an [int8_t].  When a tick makes an
    occupied entry runnable while its count is 127, the count wraps to
    -128; the dispatcher, which tests [run > 0], then makes no call for
    the entry and leaves the count at -128: the backlog is lost.  The
    whole state after the dispatch pass is the one obtained by running the
    bodies of the other entries only; when none of the other entries is
    occupied and pending, the pass changes nothing at all. *)
Theorem pending_run_wraps (s : state) (slot : nat) (t : task) :
  table_typed (task_list s) = true ->
  task_list s !! slot = Some t ->
  task_number t <> 0 -> delay t = 0 -> run t = 127 ->
  exists t',
    task_list (update s) !! slot = Some t' /\
    run t' = -128 /\
    dispatched t' = [] /\
    task_list (task_manager (update s)) !! slot = Some t' /\
    task_manager (update s) =
      set_task_list (drain_task <$> task_list (update s))
        (run_bodies (delete slot (task_list (update s))) (update s)) /\
    (Forall (fun t2 => runnable t2 = false)
       (delete slot (task_list (update s))) ->
     task_manager (update s) = update s).
Proof.
  intros Hty Ht Hid Hd Hrun.
  pose proof (proj1 (table_typed_spec _) Hty) as [Hlen _].
  destruct (update_table s Hlen) as [Hup _].
  assert (run (update_task t) = -128) as Hr.
  { unfold update_task. apply Z.eqb_neq in Hid. rewrite Hid, Hd.
    cbn [task_number delay interval run set_run set_delay Z.eqb].
    destruct (interval t =? 0);
      cbn [task_number delay interval run set_run set_delay];
      rewrite Hrun; reflexivity. }
  assert (runnable (update_task t) = false) as Hnr.
  { unfold runnable. rewrite Hr. apply andb_false_r. }
  assert (table_typed (task_list (update s)) = true) as Htyu
    by (rewrite Hup; apply table_typed_fmap;
        [apply update_task_typed|exact Hty]).
  assert (task_list (update s) !! slot = Some (update_task t)) as Hlu
    by (rewrite Hup, list_lookup_fmap, Ht; reflexivity).
  assert (task_manager (update s) =
          set_task_list (drain_task <$> task_list (update s))
            (run_bodies (delete slot (task_list (update s))) (update s)))
    as Hpass.
  { rewrite (task_manager_state _ Htyu).
    rewrite (run_bodies_delete _ slot _ _ Hlu Hnr). reflexivity. }
  exists (update_task t).
  split; [exact Hlu|]. split; [exact Hr|]. split; [|split; [|split]].
  - unfold dispatched. rewrite Hnr. reflexivity.
  - rewrite (task_manager_table _ Htyu).
    rewrite list_lookup_fmap, Hlu. cbn.
    unfold drain_task. rewrite Hnr. reflexivity.
  - exact Hpass.
  - intros Hidle. rewrite Hpass, (run_bodies_idle _ _ Hidle).
    rewrite drain_task_idle_table
      by (eapply Forall_delete_inv; eassumption).
    apply set_task_list_same.
Qed.

Lemma pending_run_wraps_witness :
  exists t',
    task_list (update (Nat.iter 12827 update boot)) !! 0%nat = Some t' /\
    run t' = -128 /\
    dispatched t' = [] /\
    task_list (task_manager (update (Nat.iter 12827 update boot))) !! 0%nat =
      Some t' /\
    task_manager (update (Nat.iter 12827 update boot)) =
      set_task_list
        (drain_task <$> task_list (update (Nat.iter 12827 update boot)))
        (run_bodies
           (delete 0%nat (task_list (update (Nat.iter 12827 update boot))))
           (update (Nat.iter 12827 update boot))) /\
    (Forall (fun t2 => runnable t2 = false)
       (delete 0%nat (task_list (update (Nat.iter 12827 update boot)))) ->
     task_manager (update (Nat.iter 12827 update boot)) =
     update (Nat.iter 12827 update boot)).
Proof.
  apply (pending_run_wraps (Nat.iter 12827 update boot) 0
           (mk_task ADC_TASK 0 100 127)).
  - vm_compute. reflexivity.
  - vm_compute. reflexivity.
  - discriminate.
  - reflexivity.
  - reflexivity.
Defined.

(** X5: [update] never changes the task identifier or the interval of an
    entry and never resizes the table; an empty slot (identifier 0) is
    left exactly as it is, and the pending-run count of an entry changes
    only at a tick that finds its delay at zero. *)
Theorem update_keeps_registration (s : state) (i : nat) (t : task) :
  length (task_list s) = TASK_MAX ->
  task_list s !! i = Some t ->
  exists t',
    task_list (update s) !! i = Some t' /\
    task_number t' = task_number t /\
    interval t' = interval t /\
    (task_number t = 0 -> t' = t) /\
    (delay t <> 0 -> run t' = run t) /\
    length (task_list (update s)) = length (task_list s).
Proof.
  intros Hlen Ht. destruct (update_table s Hlen) as [Hup _].
  exists (update_task t). rewrite Hup, list_lookup_fmap, Ht, length_fmap.
  unfold update_task. repeat split.
  - destruct (task_number t =? 0); [reflexivity|].
    destruct (delay t =? 0); [|reflexivity].
    cbn [task_number delay interval run set_run set_delay].
    destruct (interval t =? 0); reflexivity.
  - destruct (task_number t =? 0); [reflexivity|].
    destruct (delay t =? 0); [|reflexivity].
    cbn [task_number delay interval run set_run set_delay].
    destruct (interval t =? 0); reflexivity.
  - intros ->. reflexivity.
  - intros Hd. apply Z.eqb_neq in Hd. rewrite Hd.
    destruct (task_number t =? 0); reflexivity.
Qed.

Lemma update_keeps_registration_witness :
  exists t',
    task_list (update boot) !! 1%nat = Some t' /\
    task_number t' = FREQ_TASK /\
    interval t' = 100 /\
    (FREQ_TASK = 0 -> t' = mk_task FREQ_TASK 50 100 0) /\
    (50 <> 0 -> run t' = 0) /\
    length (task_list (update boot)) = length (task_list boot).
Proof.
  apply (update_keeps_registration boot 1 (mk_task FREQ_TASK 50 100 0));
    reflexivity.
Defined.

(** ** Registration and dispatch *)

Lemma u8_small x : 0 <= x < 256 -> u8 x = x.
Proof. intros H. unfold u8, unsigned. apply Z.mod_small. exact H. Qed.

(** X6: [add_task] on a slot of the table stores the identifier, the delay
    and the interval (an [int16_t] argument converted to the [uint16_t]
    field, so reduced modulo 65536) in that slot, keeps the slot's
    pending-run count, and leaves every other slot as it is. *)
Theorem add_task_lookup (number id d k : Z) (s : state) (t : task) :
  0 <= number < 256 ->
  task_list s !! Z.to_nat number = Some t ->
  0 <= id < 256 -> -32768 <= d < 32768 -> -32768 <= k < 32768 ->
  task_list (add_task number id d k s) !! Z.to_nat number =
    Some (mk_task id d (k mod 65536) (run t)) /\
  (forall j, j <> Z.to_nat number ->
     task_list (add_task number id d k s) !! j = task_list s !! j) /\
  length (task_list (add_task number id d k s)) = length (task_list s).
Proof.
  intros Hn Ht Hid Hd Hk. rewrite add_task_task_list.
  rewrite (u8_small number), (u8_small id), (s16_small d), (s16_small k)
    by lia.
  repeat split.
  - rewrite list_lookup_alter_eq, Ht. reflexivity.
  - intros j Hj. apply list_lookup_alter_ne. congruence.
  - apply length_alter.
Qed.

Lemma add_task_lookup_witness :
  task_list (add_task 1 FREQ_TASK 50 (-1) initial_state) !! 1%nat =
    Some (mk_task FREQ_TASK 50 65535 0) /\
  (forall j, j <> 1%nat ->
     task_list (add_task 1 FREQ_TASK 50 (-1) initial_state) !! j =
     task_list initial_state !! j) /\
  length (task_list (add_task 1 FREQ_TASK 50 (-1) initial_state)) =
    length (task_list initial_state).
Proof.
  apply (add_task_lookup 1 FREQ_TASK 50 (-1) initial_state empty_task).
  - lia.
  - reflexivity.
  - unfold FREQ_TASK. lia.
  - lia.
  - lia.
Defined.

Section Drain.

Lemma iter_task_manager_table s (m : nat) :
  table_typed (task_list s) = true ->
  task_list (Nat.iter m task_manager s) =
    Nat.iter m drain_task <$> task_list s /\
  table_typed (task_list (Nat.iter m task_manager s)) = true.
Proof.
  intros Hty. induction m as [|m [IHt IHty]].
  - cbn. rewrite list_fmap_id. split; [reflexivity|exact Hty].
  - rewrite !Nat.iter_succ.
    rewrite (task_manager_table _ IHty). split.
    + rewrite IHt, <- list_fmap_compose. reflexivity.
    + apply table_typed_fmap; [apply drain_task_typed|exact IHty].
Qed.

Lemma iter_drain_task t (m : nat) :
  task_number t <> 0 -> 0 <= run t ->
  Nat.iter m drain_task t = set_run (Z.max 0 (run t - Z.of_nat m)) t.
Proof.
  intros Hid Hr. apply Z.eqb_neq in Hid as Hidb. induction m as [|m IH].
  - cbn [Nat.iter nat_rect]. change (Z.of_nat 0) with 0.
    rewrite Z.sub_0_r, Z.max_r by lia. destruct t. reflexivity.
  - rewrite Nat.iter_succ, IH. unfold drain_task, runnable.
    cbn [task_number delay interval run set_run]. rewrite Hidb.
    cbn [negb andb]. rewrite Nat2Z.inj_succ.
    destruct (Z.max_spec 0 (run t - Z.of_nat m)) as [[Hlt ->]|[Hle ->]];
      destruct (Z.max_spec 0 (run t - Z.succ (Z.of_nat m)))
        as [[Hlt' ->]|[Hle' ->]]; try lia.
    + destruct (Z.gtb_spec (run t - Z.of_nat m) 0); [|lia].
      unfold set_run. cbn. f_equal. lia.
    + destruct (Z.gtb_spec (run t - Z.of_nat m) 0); [|lia].
      unfold set_run. cbn. f_equal. lia.
    + reflexivity.
Qed.

End Drain.

(** X7: the dispatcher takes one pending run of an entry per pass.  With
    no tick in between, [m] passes leave an occupied entry that had [r]
    pending runs with [max 0 (r - m)] of them, its other fields unchanged:
    a backlog of [r] is drained by [r] rounds of the main loop. *)
Theorem task_manager_drains (s : state) (slot : nat) (t : task) (m : nat) :
  table_typed (task_list s) = true ->
  task_list s !! slot = Some t ->
  task_number t <> 0 -> 0 <= run t ->
  task_list (Nat.iter m task_manager s) !! slot =
    Some (set_run (Z.max 0 (run t - Z.of_nat m)) t).
Proof.
  intros Hty Ht Hid Hr.
  destruct (iter_task_manager_table s m Hty) as [-> _].
  rewrite list_lookup_fmap, Ht. cbn. rewrite iter_drain_task by assumption.
  reflexivity.
Qed.

Lemma task_manager_drains_witness :
  task_list (Nat.iter 2 task_manager (Nat.iter 250 update boot)) !! 0%nat =
    Some (mk_task ADC_TASK 53 100 1).
Proof.
  apply (task_manager_drains (Nat.iter 250 update boot) 0
           (mk_task ADC_TASK 53 100 3) 2).
  - vm_compute. reflexivity.
  - vm_compute. reflexivity.
  - discriminate.
  - cbn. lia.
Defined.

Section Idle.

Lemma lookup_total_not_runnable (l : list task) i :
  Forall (fun t => runnable t = false) l -> runnable (l !!! i) = false.
Proof.
  intros Hall. rewrite list_lookup_total_alt.
  destruct (l !! i) as [t|] eqn:E; cbn.
  - eapply Forall_lookup in Hall; eassumption.
  - reflexivity.
Qed.

Lemma task_manager_body_idle i s :
  runnable (task_list s !!! i) = false -> task_manager_body i s = s.
Proof.
  unfold runnable, task_manager_body. intros H.
  destruct (negb _); [|reflexivity].
  cbn [andb] in H. rewrite H. reflexivity.
Qed.

End Idle.

(** X8: a dispatch pass over a table in which no entry is both occupied
    and pending changes nothing at all: no task body is called, nothing is
    transmitted, no register and no table entry is written. *)
Theorem task_manager_idle (s : state) :
  Forall (fun t => runnable t = false) (task_list s) ->
  task_manager s = s.
Proof.
  intros Hall. unfold task_manager.
  apply (for_loop_preserves (fun x => x = s)); [|reflexivity].
  intros i x ->. apply task_manager_body_idle, lookup_total_not_runnable, Hall.
Qed.

Lemma task_manager_idle_witness : task_manager boot = boot.
Proof.
  apply (task_manager_idle boot). repeat constructor.
Defined.

(** ** The task bodies *)

(** X9: [task_1] selects ADC channel 0 (the four MUX bits of [ADMUX]
    become zero) without touching the upper four bits of [ADMUX] (voltage
    reference and result alignment), and sets the start-conversion bit
    [ADSC] of [ADCSRA] without touching any other bit of that register. *)
Theorem task_1_registers (s : state) :
  Z.land (ADMUX (task_1 s)) 15 = 0 /\
  Z.land (ADMUX (task_1 s)) 240 = Z.land (ADMUX s) 240 /\
  Z.testbit (ADCSRA (task_1 s)) ADSC = true /\
  (forall n, 0 <= n -> n <> ADSC ->
     Z.testbit (ADCSRA (task_1 s)) n = Z.testbit (ADCSRA s) n).
Proof.
  unfold task_1. cbn [ADMUX ADCSRA set_ADMUX set_ADCSRA record_call].
  change (Z.land 0 15) with 0. rewrite Z.lor_0_r. repeat split.
  - rewrite <- Z.land_assoc. change (Z.land 240 15) with 0.
    apply Z.land_0_r.
  - rewrite <- Z.land_assoc. reflexivity.
  - rewrite Z.lor_spec. apply orb_true_r.
  - intros n Hn Hne. rewrite Z.lor_spec.
    change (Z.shiftl 1 ADSC) with (2 ^ 6).
    rewrite Z.pow2_bits_eqb by lia.
    destruct (Z.eqb_spec 6 n) as [<-|_]; [contradiction|].
    apply orb_false_r.
Qed.

Lemma task_1_registers_witness :
  Z.land (ADMUX (task_1 boot)) 15 = 0 /\
  Z.land (ADMUX (task_1 boot)) 240 = Z.land (ADMUX boot) 240 /\
  Z.testbit (ADCSRA (task_1 boot)) ADSC = true /\
  (forall n, 0 <= n -> n <> ADSC ->
     Z.testbit (ADCSRA (task_1 boot)) n = Z.testbit (ADCSRA boot) n).
Proof. apply (task_1_registers boot). Defined.

Section Digits.

Lemma decimal_length_two v : 10 <= v -> (2 <= length (decimal v))%nat.
Proof.
  intros Hv. rewrite decimal_big, length_app by exact Hv. cbn.
  pose proof (decimal_nonempty (v / 10)) as Hne.
  destruct (decimal (v / 10)); [contradiction|]. cbn. lia.
Qed.

End Digits.

(** X10: a conversion followed by a report.  Whatever raw value the ADC
    delivers, the report that follows the completion interrupt shows the
    value clamped into 50..1000, so a number of two to four digits, on a
    line of 20 to 22 bytes. *)
Theorem report_after_conversion (r : Z) (s : state) :
  transmitted (ADC_vect r s) (task_2 (ADC_vect r s)) =
    report (clamp r 50 1000) /\
  (20 <= length (report (clamp r 50 1000)) <= 22)%nat.
Proof.
  pose proof (clamp_range r) as Hc.
  assert (conversion_result (ADC_vect r s) = clamp r 50 1000) as Hcr
    by apply ADC_vect_w_conversion_result.
  split.
  - rewrite task_2_effect_ok by (rewrite Hcr; lia).
    unfold transmitted, task_2_effect. cbn [UDR0].
    rewrite drop_app_length, Hcr. reflexivity.
  - unfold report. rewrite !length_app.
    pose proof (decimal_length_two (clamp r 50 1000) ltac:(lia)).
    pose proof (decimal_length_bound 3 (clamp r 50 1000)
                  ltac:(change (10 ^ Z.of_nat 4) with 10000; lia)).
    cbn [length chars]. cbn. lia.
Qed.

(** X11: the digit loop of [task_2] stays inside [char str[10]].  For any
    [uint16_t] value it writes between one and five digit characters, at
    indices 0 to 4 at most, least significant digit first; the elements
    from the final index on are not written, so the terminating NUL goes to
    an index of at most 5. *)
Theorem itoa_loop_within_buffer (s : state) (str0 : list Z) :
  length str0 = 10%nat ->
  0 <= conversion_result s < 65536 ->
  (1 <= (itoa_loop s str0 0).2 <= 5)%nat /\
  length (itoa_loop s str0 0).1.2 = 10%nat /\
  take (itoa_loop s str0 0).2 (itoa_loop s str0 0).1.2 =
    reverse (decimal (conversion_result s)) /\
  drop (itoa_loop s str0 0).2 (itoa_loop s str0 0).1.2 =
    drop (itoa_loop s str0 0).2 str0.
Proof.
  intros Hlen Hcr.
  pose proof (decimal_length_u16 _ Hcr) as Hd.
  pose proof (decimal_nonempty (conversion_result s)) as Hne.
  pose proof (itoa_loop_digits (conversion_result s) (proj1 Hcr) s [] str0
                eq_refl) as Hloop.
  cbn [app length Nat.add] in Hloop. rewrite Hloop by lia. clear Hloop.
  set (ds := decimal (conversion_result s)) in *. cbn [fst snd].
  assert (length ds <> 0%nat) by (destruct ds; [contradiction|discriminate]).
  repeat split.
  - lia.
  - exact Hd.
  - rewrite length_app, length_reverse, length_drop. lia.
  - rewrite <- (length_reverse ds) at 1. apply take_app_length.
  - rewrite <- (length_reverse ds) at 1. apply drop_app_length.
Qed.

Lemma itoa_loop_within_buffer_witness :
  (1 <= (itoa_loop (ADC_vect 1023 boot) (replicate 10 7%Z) 0).2 <= 5)%nat /\
  length (itoa_loop (ADC_vect 1023 boot) (replicate 10 7%Z) 0).1.2 = 10%nat /\
  take (itoa_loop (ADC_vect 1023 boot) (replicate 10 7%Z) 0).2
       (itoa_loop (ADC_vect 1023 boot) (replicate 10 7%Z) 0).1.2 =
    reverse (chars "1000") /\
  drop (itoa_loop (ADC_vect 1023 boot) (replicate 10 7%Z) 0).2
       (itoa_loop (ADC_vect 1023 boot) (replicate 10 7%Z) 0).1.2 =
    drop (itoa_loop (ADC_vect 1023 boot) (replicate 10 7%Z) 0).2
      (replicate 10 7%Z).
Proof.
  apply (itoa_loop_within_buffer (ADC_vect 1023 boot) (replicate 10 7%Z)).
  - reflexivity.
  - vm_compute. split; congruence.
Defined.

(** X12: the swap loop of [task_2], run with [j = 0] and [k = n - 1] on an
    array whose first [n] elements are [l], reverses exactly those [n]
    elements in place and leaves the rest of the array alone; running it a
    second time restores the array. *)
Theorem reverse_loop_reverses (l rest : list Z) :
  reverse_loop (l ++ rest) 0 (length l - 1) = reverse l ++ rest /\
  reverse_loop (reverse_loop (l ++ rest) 0 (length l - 1)) 0 (length l - 1) =
    l ++ rest.
Proof.
  assert (forall l', reverse_loop (l' ++ rest) 0 (length l' - 1) =
                     reverse l' ++ rest) as H.
  { intros l'.
    exact (reverse_loop_segment (length l') [] l' rest (Nat.le_refl _)). }
  split; [apply H|].
  rewrite H. rewrite <- (length_reverse l), H, reverse_involutive.
  reflexivity.
Qed.

(** ** Sleep *)

Section SleepRegisters.

Lemma SMCR_after_go_sleep x :
  Z.land
    (Z.lor
       (Z.lor
          (Z.land x
             (Z.land 255
                (Z.lnot (Z.lor (Z.shiftl 1 SM0)
                           (Z.lor (Z.shiftl 1 SM1) (Z.shiftl 1 SM2))))))
          SLEEP_MODE_STANDBY)
       (Z.shiftl 1 SE))
    (Z.land 255 (Z.lnot (Z.shiftl 1 SE))) =
  Z.lor (Z.land x 240) 12.
Proof.
  change (Z.land 255 (Z.lnot (Z.lor (Z.shiftl 1 SM0)
            (Z.lor (Z.shiftl 1 SM1) (Z.shiftl 1 SM2))))) with 241.
  change (Z.land 255 (Z.lnot (Z.shiftl 1 SE))) with 254.
  change SLEEP_MODE_STANDBY with 12. change (Z.shiftl 1 SE) with 1.
  rewrite !Z.land_lor_distr_l, <- Z.land_assoc.
  change (Z.land 241 254) with 240. change (Z.land 12 254) with 12.
  change (Z.land 1 254) with 0. apply Z.lor_0_r.
Qed.

Lemma go_sleep_enter_state s :
  go_sleep_enter s =
  set_sleeping true
    (sei (sleep_enable (cli (set_sleep_mode SLEEP_MODE_STANDBY s)))).
Proof.
  unfold go_sleep_enter, sleep_cpu.
  assert (Z.testbit (SMCR (sei (sleep_enable (cli (set_sleep_mode
            SLEEP_MODE_STANDBY s))))) SE = true) as ->.
  { cbn [SMCR sei sleep_enable cli set_sleep_mode set_SREG_I set_SMCR].
    rewrite Z.lor_spec. apply orb_true_r. }
  reflexivity.
Qed.

End SleepRegisters.

(** X13: what a call of [go_sleep] does.  At the SLEEP instruction the
    interrupts are enabled, whatever the I flag was before, and the CPU
    halts.  On return the sleep-mode bits of [SMCR] select standby, the
    sleep-enable bit is clear again, the upper four bits of [SMCR] are as
    before, the interrupts are enabled, and everything else (globals,
    other registers, bytes transmitted, task table) is unchanged. *)
Theorem go_sleep_effect (s : state) :
  SREG_I (go_sleep_enter s) = true /\
  sleeping (go_sleep_enter s) = true /\
  go_sleep s =
    mk_state (task_list s) (frequency_control s) (conversion_result s)
      (overflows s) (OCR1A s) (ADMUX s) (ADCSRA s)
      (Z.lor (Z.land (SMCR s) 240) 12) true false (UDR0 s) (calls s).
Proof.
  unfold go_sleep. rewrite go_sleep_enter_state. repeat split.
  unfold wake, PCINT2_vect, sleep_disable, sei, sleep_enable, cli,
    set_sleep_mode.
  cbn [SMCR set_SMCR set_SREG_I set_sleeping task_list frequency_control
       conversion_result overflows OCR1A ADMUX ADCSRA SREG_I sleeping UDR0
       calls].
  rewrite SMCR_after_go_sleep. reflexivity.
Qed.

(** ** Invariants of the running program *)

Section Running.

Lemma running_reachable s : running s -> reachable s.
Proof.
  induction 1 as [|s s' _ IH Hstep].
  - apply reachable_boot.
  - eapply reachable_step; eassumption.
Qed.

Lemma drain_task_fields id d k r :
  exists r', drain_task (mk_task id d k r) = mk_task id d k r'.
Proof.
  unfold drain_task. destruct (runnable _); eexists; reflexivity.
Qed.

Lemma update_task_program id d r :
  id <> 0 -> 0 <= d <= 100 ->
  exists d' r',
    update_task (mk_task id d 100 r) = mk_task id d' 100 r' /\
    0 <= d' <= 100.
Proof.
  intros Hid Hd. apply Z.eqb_neq in Hid. unfold update_task.
  cbn [task_number delay interval run set_run set_delay]. rewrite Hid.
  destruct (Z.eqb_spec d 0).
  - cbn [task_number delay interval run set_run set_delay Z.eqb].
    eexists _, _. split; [reflexivity|]. vm_compute. split; discriminate.
  - cbn [task_number delay interval run set_run set_delay].
    rewrite s16_small by lia. eexists _, _. split; [reflexivity|]. lia.
Qed.

Lemma store_task_OCR1A i f s : OCR1A (store_task i f s) = OCR1A s.
Proof. reflexivity. Qed.

Lemma task_2_OCR1A s : OCR1A (task_2 s) = OCR1A s.
Proof.
  destruct (task_2_from_frame (replicate 10 0) s) as (v & out & H).
  unfold task_2. rewrite H. reflexivity.
Qed.

Lemma update_OCR1A s : OCR1A (update s) = OCR1A s.
Proof.
  apply (for_loop_preserves (fun x => OCR1A x = OCR1A s)); [|reflexivity].
  intros i x Hx. rewrite <- Hx. unfold update_body.
  destruct (negb _); [|reflexivity].
  destruct (delay _ =? 0); [|reflexivity].
  destruct (negb _); reflexivity.
Qed.

Lemma task_manager_OCR1A s : OCR1A (task_manager s) = OCR1A s.
Proof.
  apply (for_loop_preserves (fun x => OCR1A x = OCR1A s)); [|reflexivity].
  intros i x Hx. rewrite <- Hx. unfold task_manager_body.
  destruct (negb _); [|reflexivity].
  destruct (run _ >? 0); [|reflexivity].
  rewrite store_task_OCR1A.
  destruct (_ =? ADC_TASK); [reflexivity|].
  destruct (_ =? FREQ_TASK); [apply task_2_OCR1A|reflexivity].
Qed.

Lemma go_sleep_OCR1A s : OCR1A (go_sleep s) = OCR1A s.
Proof.
  unfold go_sleep, go_sleep_enter, sleep_cpu.
  destruct (Z.testbit _ SE); reflexivity.
Qed.

Lemma step_OCR1A s s' :
  step s s' -> OCR1A s = frequency_control s ->
  OCR1A s' = frequency_control s'.
Proof.
  intros Hstep Hs. destruct Hstep as [pind s|s|r s Hr|s].
  - rewrite main_loop_body_frequency_control, <- Hs.
    unfold main_loop_body. destruct (_ =? 0).
    + rewrite go_sleep_OCR1A. apply task_manager_OCR1A.
    + apply task_manager_OCR1A.
  - rewrite TIMER2_OVF_vect_frequency_control, <- Hs.
    unfold TIMER2_OVF_vect. destruct (_ >=? OVF_MAX); [|reflexivity].
    cbn [OCR1A set_overflows]. rewrite update_OCR1A. reflexivity.
  - unfold ADC_vect, ADC_vect_w. reflexivity.
  - exact Hs.
Qed.

End Running.

(** X14: while the program runs the task table keeps the shape
    [init_tasks] gave it: slot 0 holds the ADC task and slot 1 the
    reporting task, both with interval 100, and both delays stay within
    0..100, so the signed delay field never goes negative and never
    wraps. *)
Theorem running_table (s : state) :
  running s ->
  exists d0 r0 d1 r1,
    task_list s =
      [mk_task ADC_TASK d0 100 r0; mk_task FREQ_TASK d1 100 r1] /\
    0 <= d0 <= 100 /\ 0 <= d1 <= 100.
Proof.
  induction 1 as [|s s' Hrun IH Hstep].
  - exists 0, 0, 50, 0. split; [reflexivity|lia].
  - destruct IH as (d0 & r0 & d1 & r1 & Hl & Hd0 & Hd1).
    apply running_reachable, reachable_typed in Hrun as [Hty _].
    destruct Hstep as [pind s|s|r s Hr|s].
    + assert (task_list (main_loop_body pind s) = task_list (task_manager s))
        as ->.
      { unfold main_loop_body. destruct (_ =? 0); [|reflexivity].
        apply go_sleep_task_list_frame. }
      rewrite (task_manager_table s Hty), Hl.
      destruct (drain_task_fields ADC_TASK d0 100 r0) as [r0' H0].
      destruct (drain_task_fields FREQ_TASK d1 100 r1) as [r1' H1].
      exists d0, r0', d1, r1'. cbn [fmap list_fmap]. rewrite H0, H1.
      split; [reflexivity|lia].
    + destruct (TIMER2_OVF_vect_task_list s) as [-> | ->].
      { exists d0, r0, d1, r1. split; [exact Hl|lia]. }
      pose proof (proj1 (table_typed_spec _) Hty) as [Hlen _].
      destruct (update_table (set_overflows (u16 (overflows s + 1)) s) Hlen)
        as [-> _].
      cbn [task_list set_overflows]. rewrite Hl.
      destruct (update_task_program ADC_TASK d0 r0 ltac:(discriminate) Hd0)
        as (d0' & r0' & H0 & Hd0').
      destruct (update_task_program FREQ_TASK d1 r1 ltac:(discriminate) Hd1)
        as (d1' & r1' & H1 & Hd1').
      exists d0', r0', d1', r1'. cbn [fmap list_fmap]. rewrite H0, H1.
      split; [reflexivity|lia].
    + rewrite ADC_vect_task_list. exists d0, r0, d1, r1.
      split; [exact Hl|lia].
    + exists d0, r0, d1, r1. split; [exact Hl|lia].
Qed.

Lemma running_table_witness :
  exists d0 r0 d1 r1,
    task_list (TIMER2_OVF_vect (main_loop_body 0 boot)) =
      [mk_task ADC_TASK d0 100 r0; mk_task FREQ_TASK d1 100 r1] /\
    0 <= d0 <= 100 /\ 0 <= d1 <= 100.
Proof.
  apply (running_table (TIMER2_OVF_vect (main_loop_body 0 boot))).
  apply (running_step (main_loop_body 0 boot)); [|apply step_tick].
  apply (running_step boot); [apply running_boot|apply step_main].
Defined.

(** X15: while the program runs, the PWM compare register [OCR1A] always
    holds the value of the variable [frequency_control], and that value
    lies in 124..2499. *)
Theorem running_OCR1A (s : state) :
  running s ->
  OCR1A s = frequency_control s /\ 124 <= OCR1A s <= 2499.
Proof.
  induction 1 as [|s s' _ [IH1 IH2] Hstep].
  - split; [reflexivity|]. vm_compute. split; discriminate.
  - pose proof (step_OCR1A s s' Hstep IH1) as H1. split; [exact H1|].
    rewrite H1. rewrite IH1 in IH2.
    apply (step_frequency_control s s' Hstep IH2).
Qed.

Lemma running_OCR1A_witness :
  OCR1A (ADC_vect 1023 boot) = frequency_control (ADC_vect 1023 boot) /\
  124 <= OCR1A (ADC_vect 1023 boot) <= 2499.
Proof.
  apply (running_OCR1A (ADC_vect 1023 boot)).
  apply (running_step boot); [apply running_boot|apply step_adc; lia].
Defined.

Section Phase.

Lemma runnable_update_entry id k y :
  id <> 0 ->
  runnable (update_task (periodic_entry id k y)) = (y =? 0) /\
  task_number (update_task (periodic_entry id k y)) = id.
Proof.
  intros Hid. apply Z.eqb_neq in Hid as Hidb.
  unfold update_task, runnable, periodic_entry.
  cbn [task_number delay interval run set_run set_delay].
  rewrite Hidb. destruct (y =? 0).
  - cbn [task_number delay interval run set_run set_delay].
    change (s8 (0 + 1)) with 1.
    destruct (k =? 0);
      cbn [task_number delay interval run set_run set_delay];
      rewrite Hidb; split; reflexivity.
  - cbn [task_number delay interval run set_run set_delay].
    rewrite Hidb. split; reflexivity.
Qed.

(** The table of the program just before tick [n], the dispatcher having
    kept up. *)
Lemma before_tick_boot_table (n : nat) :
  task_list (before_tick boot n) =
    [periodic_entry ADC_TASK 100 (delay_after 0 100 (Z.of_nat (n - 1)));
     periodic_entry FREQ_TASK 100 (delay_after 50 100 (Z.of_nat (n - 1)))] /\
  table_typed (task_list (before_tick boot n)) = true.
Proof.
  unfold before_tick.
  destruct (iter_tick_and_dispatch_table boot (n - 1) eq_refl) as [Hb Hty].
  split; [|exact Hty]. rewrite Hb.
  change (task_list boot)
    with [periodic_entry ADC_TASK 100 0; periodic_entry FREQ_TASK 100 50].
  cbn [fmap list_fmap].
  rewrite !iter_slot_step_entry by (unfold ADC_TASK, FREQ_TASK; lia).
  reflexivity.
Qed.

Lemma fires_boot (n : nat) :
  fires boot 0 n = (delay_after 0 100 (Z.of_nat (n - 1)) =? 0) /\
  fires boot 1 n = (delay_after 50 100 (Z.of_nat (n - 1)) =? 0).
Proof.
  split.
  - rewrite (fires_entry boot 0 (periodic_entry ADC_TASK 100 0) n
               eq_refl eq_refl).
    rewrite iter_slot_step_entry by (unfold ADC_TASK; lia).
    apply update_entry_fires. discriminate.
  - rewrite (fires_entry boot 1 (periodic_entry FREQ_TASK 100 50) n
               eq_refl eq_refl).
    rewrite iter_slot_step_entry by (unfold FREQ_TASK; lia).
    apply update_entry_fires. discriminate.
Qed.

End Phase.

(** X16: the two tasks of the program never become runnable at the same
    tick.  With the dispatcher keeping up, the reporting task is made
    runnable at tick [n + 50] exactly when the ADC task is made runnable at
    tick [n], so every report comes 50 ticks after a conversion was
    started and a dispatch pass never runs both task bodies: the whole
    state after the pass that follows tick [n] is the state after the tick
    with the table drained and with [task_1] alone run if the ADC task was
    made runnable, [task_2] alone if the reporting task was, and no body
    otherwise. *)
Theorem report_follows_sampling (n : nat) :
  (1 <= n)%nat ->
  fires boot 1 (n + 50) = fires boot 0 n /\
  (fires boot 0 n = true -> fires boot 1 n = false) /\
  task_manager (update (before_tick boot n)) =
    set_task_list (drain_task <$> task_list (update (before_tick boot n)))
      (if fires boot 0 n then task_1 (update (before_tick boot n))
       else if fires boot 1 n then task_2 (update (before_tick boot n))
       else update (before_tick boot n)).
Proof.
  intros Hn.
  pose proof (update_period boot 0 (mk_task ADC_TASK 0 100 0) n
                eq_refl eq_refl ltac:(discriminate) eq_refl
                ltac:(cbn; lia) ltac:(cbn; lia) Hn) as H0.
  pose proof (update_period boot 1 (mk_task FREQ_TASK 50 100 0) n
                eq_refl eq_refl ltac:(discriminate) eq_refl
                ltac:(cbn; lia) ltac:(cbn; lia) Hn) as H1.
  pose proof (update_period boot 1 (mk_task FREQ_TASK 50 100 0) (n + 50)
                eq_refl eq_refl ltac:(discriminate) eq_refl
                ltac:(cbn; lia) ltac:(cbn; lia) ltac:(lia)) as H2.
  cbn [delay interval] in H0, H1, H2.
  assert (fires boot 0 n = true -> fires boot 1 n = false) as Hex.
  { intros Hf. apply H0 in Hf as [j Hj].
    destruct (fires boot 1 n) eqn:E; [|reflexivity].
    destruct (proj1 H1 eq_refl) as [j' Hj']. lia. }
  split; [|split; [exact Hex|]].
  - apply eq_true_iff_eq. rewrite H0, H2.
    split; intros [j Hj]; exists j; lia.
  - clear H0 H1 H2.
    destruct (before_tick_boot_table n) as [Hb Hty].
    pose proof (proj1 (table_typed_spec _) Hty) as [Hlen _].
    destruct (update_table _ Hlen) as [Hup _].
    assert (table_typed (task_list (update (before_tick boot n))) = true)
      as Htyu
      by (rewrite Hup; apply table_typed_fmap;
          [apply update_task_typed|exact Hty]).
    rewrite (task_manager_state _ Htyu). f_equal.
    rewrite Hup, Hb. cbn [fmap list_fmap]. rewrite !run_bodies_cons.
    destruct (runnable_update_entry ADC_TASK 100
                (delay_after 0 100 (Z.of_nat (n - 1))) ltac:(discriminate))
      as [-> ->].
    destruct (runnable_update_entry FREQ_TASK 100
                (delay_after 50 100 (Z.of_nat (n - 1))) ltac:(discriminate))
      as [-> ->].
    destruct (fires_boot n) as [F0 F1]. rewrite F0, F1 in *.
    destruct (delay_after 0 100 (Z.of_nat (n - 1)) =? 0);
      destruct (delay_after 50 100 (Z.of_nat (n - 1)) =? 0);
      try reflexivity.
    specialize (Hex eq_refl). discriminate.
Qed.

Lemma report_follows_sampling_witness :
  fires boot 1 (102 + 50) = fires boot 0 102 /\
  (fires boot 0 102 = true -> fires boot 1 102 = false) /\
  task_manager (update (before_tick boot 102)) =
    set_task_list (drain_task <$> task_list (update (before_tick boot 102)))
      (if fires boot 0 102 then task_1 (update (before_tick boot 102))
       else if fires boot 1 102 then task_2 (update (before_tick boot 102))
       else update (before_tick boot 102)).
Proof. apply (report_follows_sampling 102). lia. Defined.

(** ** Start-up and the conversion handler *)

(** Two states with the same fields are the same state. *)
Lemma state_ext s1 s2 :
  task_list s1 = task_list s2 ->
  frequency_control s1 = frequency_control s2 ->
  conversion_result s1 = conversion_result s2 ->
  overflows s1 = overflows s2 ->
  OCR1A s1 = OCR1A s2 ->
  ADMUX s1 = ADMUX s2 ->
  ADCSRA s1 = ADCSRA s2 ->
  SMCR s1 = SMCR s2 ->
  SREG_I s1 = SREG_I s2 ->
  sleeping s1 = sleeping s2 ->
  UDR0 s1 = UDR0 s2 ->
  calls s1 = calls s2 ->
  s1 = s2.
Proof.
  destruct s1, s2. cbn. intros. subst. reflexivity.
Qed.

Lemma setup_system_state s :
  setup_system s =
  mk_state (task_list s) (frequency_control s) (conversion_result s)
    (overflows s) (frequency_control s)
    (Z.land (Z.lor (ADMUX s) 64) 223) (Z.lor (ADCSRA s) 143)
    (SMCR s) true (sleeping s) (UDR0 s) (calls s).
Proof.
  apply state_ext; unfold setup_system, sei;
    cbn [task_list frequency_control conversion_result overflows OCR1A
         ADMUX ADCSRA SMCR SREG_I sleeping UDR0 calls
         set_OCR1A set_ADMUX set_ADCSRA set_SREG_I];
    try reflexivity.
  change (Z.shiftl 1 3) with 8. change (Z.shiftl 1 7) with 128.
  rewrite <- !Z.lor_assoc. reflexivity.
Qed.

(** X17: [setup_system] leaves the task table and the globals
    ([frequency_control], [conversion_result], [overflows]) alone, loads
    [OCR1A] from [frequency_control] and enables the interrupts; of the
    modelled state it writes [OCR1A], [ADMUX], [ADCSRA] and the I flag and
    nothing else.  Whatever the registers held, afterwards the ADC is
    enabled ([ADEN]) with its interrupt ([ADIE]) and prescaler 128
    ([ADPS2..0]), no conversion has been started by it ([ADSC] is as
    before), the reference is AVcc ([REFS0] set), the result is
    right-aligned ([ADLAR] clear) and the channel bits are as before. *)
Theorem setup_system_registers (s : state) :
  setup_system s =
    mk_state (task_list s) (frequency_control s) (conversion_result s)
      (overflows s) (frequency_control s)
      (Z.land (Z.lor (ADMUX s) 64) 223) (Z.lor (ADCSRA s) 143)
      (SMCR s) true (sleeping s) (UDR0 s) (calls s) /\
  task_list (setup_system s) = task_list s /\
  frequency_control (setup_system s) = frequency_control s /\
  conversion_result (setup_system s) = conversion_result s /\
  OCR1A (setup_system s) = frequency_control s /\
  SREG_I (setup_system s) = true /\
  Z.testbit (ADCSRA (setup_system s)) 7 = true /\
  Z.testbit (ADCSRA (setup_system s)) 3 = true /\
  Z.land (ADCSRA (setup_system s)) 7 = 7 /\
  Z.testbit (ADCSRA (setup_system s)) ADSC = Z.testbit (ADCSRA s) ADSC /\
  Z.testbit (ADMUX (setup_system s)) 6 = true /\
  Z.testbit (ADMUX (setup_system s)) 5 = false /\
  Z.land (ADMUX (setup_system s)) 15 = Z.land (ADMUX s) 15.
Proof.
  split; [apply setup_system_state|].
  unfold setup_system, sei.
  cbn [task_list frequency_control conversion_result OCR1A SREG_I ADCSRA
       ADMUX set_OCR1A set_ADMUX set_ADCSRA set_SREG_I].
  change (Z.shiftl 1 3) with 8. change (Z.shiftl 1 7) with 128.
  change (Z.shiftl 1 6) with 64.
  change (Z.land 255 (Z.lnot (Z.shiftl 1 5))) with 223.
  repeat split.
  - rewrite !Z.lor_spec. apply orb_true_r.
  - rewrite !Z.lor_spec. cbn. rewrite orb_true_r. reflexivity.
  - rewrite !Z.land_lor_distr_l. change (Z.land 8 7) with 0.
    change (Z.land 128 7) with 0. change (Z.land 7 7) with 7.
    rewrite !Z.lor_0_r. apply Z.bits_inj'. intros n Hn.
    rewrite Z.lor_spec, Z.land_spec.
    destruct (Z.testbit 7 n); [apply orb_true_r|].
    rewrite andb_false_r. reflexivity.
  - rewrite !Z.lor_spec. unfold ADSC. cbn. rewrite !orb_false_r. reflexivity.
  - rewrite Z.land_spec, Z.lor_spec. cbn. rewrite orb_true_r. reflexivity.
  - rewrite Z.land_spec. cbn. apply andb_false_r.
  - rewrite <- Z.land_assoc. change (Z.land 223 15) with 15.
    rewrite Z.land_lor_distr_l. change (Z.land 64 15) with 0.
    apply Z.lor_0_r.
Qed.

(** X18: the completion handler clamps.  Whatever the raw value, the
    variable [conversion_result] ends within 50..1000, and equal to the raw
    value exactly when that lies within 50..1000; the handler overwrites
    what an earlier completion left, so of two completions in a row only
    the later one shows. *)
Theorem ADC_vect_clamps (r1 r2 : Z) (s : state) :
  50 <= conversion_result (ADC_vect r2 s) <= 1000 /\
  (conversion_result (ADC_vect r2 s) = r2 <-> 50 <= r2 <= 1000) /\
  ADC_vect r2 (ADC_vect r1 s) = ADC_vect r2 s.
Proof.
  assert (conversion_result (ADC_vect r2 s) = clamp r2 50 1000) as ->
    by apply ADC_vect_w_conversion_result.
  split; [apply clamp_range|]. split.
  - unfold clamp. destruct (Z.ltb_spec r2 50); [lia|].
    destruct (Z.gtb_spec r2 1000); lia.
  - unfold ADC_vect, ADC_vect_w.
    cbn [conversion_result set_conversion_result].
    destruct (r1 <? 50); [|destruct (r1 >? 1000)];
      (destruct (r2 <? 50); [|destruct (r2 >? 1000)]); reflexivity.
Qed.

(** X19: the mapping the handler computes on the target, where the
    product [(2499-124) * conversion_result] is formed in 16-bit unsigned
    arithmetic: the Frequency Control Value is
    [124 + ((2375 * c) mod 65536) / 1000] for the clamped value [c], which
    never exceeds 189, and the same value goes to [OCR1A]. *)
Theorem ADC_vect_mapping_on_target (r : Z) (s : state) :
  frequency_control (ADC_vect r s) =
    124 + (2375 * clamp r 50 1000) mod 65536 / 1000 /\
  OCR1A (ADC_vect r s) = frequency_control (ADC_vect r s) /\
  124 <= frequency_control (ADC_vect r s) <= 189.
Proof.
  split; [apply ADC_vect_frequency_control|].
  split; [reflexivity|apply ADC_vect_frequency_control_bounds].
Qed.

(** ** Reading a report back *)

(** X20: the number can be read back from a report.  Between the 13
    characters of the prefix and the 5 characters of the suffix the line
    holds digit characters only, and reading them as a decimal number
    gives the value [conversion_result] had when the task started. *)
Theorem report_round_trip (s : state) :
  0 <= conversion_result s < 65536 ->
  Forall is_digit
    (take (length (transmitted s (task_2 s)) - 18)
          (drop 13 (transmitted s (task_2 s)))) /\
  decimal_value
    (take (length (transmitted s (task_2 s)) - 18)
          (drop 13 (transmitted s (task_2 s)))) =
  conversion_result s.
Proof.
  intros Hcr. rewrite task_2_effect_ok by exact Hcr.
  unfold transmitted, task_2_effect. cbn [UDR0].
  rewrite drop_app_length. unfold report.
  set (ds := decimal (conversion_result s)).
  assert (length (chars "Frequency is " ++ ds ++ chars " Hz" ++ [CR; LF]) - 18
          = length ds)%nat as ->.
  { rewrite !length_app. cbn. lia. }
  change 13%nat with (length (chars "Frequency is ")).
  rewrite drop_app_length, take_app_length.
  split; [apply decimal_digits; lia|apply decimal_value_decimal; lia].
Qed.

Lemma report_round_trip_witness :
  Forall is_digit
    (take (length (transmitted (ADC_vect 777 boot)
                     (task_2 (ADC_vect 777 boot))) - 18)
          (drop 13 (transmitted (ADC_vect 777 boot)
                      (task_2 (ADC_vect 777 boot))))) /\
  decimal_value
    (take (length (transmitted (ADC_vect 777 boot)
                     (task_2 (ADC_vect 777 boot))) - 18)
          (drop 13 (transmitted (ADC_vect 777 boot)
                      (task_2 (ADC_vect 777 boot))))) =
  777.
Proof.
  apply (report_round_trip (ADC_vect 777 boot)).
  vm_compute. split; congruence.
Defined.
